(** * rag_server.py: the websocket gateway of project-AI

    A shallow embedding of [RAGServer] (src/rag_server.py) and the properties
    of its message routing.

    - Python objects are the inductive [value]: what [json.loads] returns
      (None, bool, int, float, str, list, dict) plus [bytes], the type of
      what [base64.b64decode] returns.
    - [RAGServer]'s two attributes are the record [server]; every connection
      is served by a bound method of the one instance built in [main], so the
      record is shared by all handlers.
    - Exceptions are values of [exn]; effectful code lives in the monad [M],
      a state monad over [world] (the server object and the frames written to
      the sockets) with exceptions.  A raised exception keeps the state
      reached so far, as in Python.
    - [json.loads] belongs to the Python library, not to the repository: the
      handler is parameterised by it.  [json_loads] is [json.loads] on a
      fragment of JSON, and instantiates it on concrete frames.
    - [websocket.send] is taken to succeed; a peer that disconnects ends the
      list of messages a handler receives. *)

From Stdlib Require Import ZArith String Ascii List Floats.SpecFloat Init.Byte DecimalString.
From stdpp Require Import base gmap sets list strings.

Local Open Scope string_scope.
Set Warnings "-register-all".

(** ** Python objects *)

(** A connection, [websocket] in the source: compared by identity. *)
Definition conn := nat.

Inductive value : Type :=
| VNone
| VBool (b : bool)
| VInt (z : Z)
| VFloat (f : spec_float)
| VStr (s : string)
| VBytes (b : list byte)
| VList (l : list value)
| VDict (kvs : list (string * value)).

(** [type(o).__name__] *)
Definition type_name (o : value) : string :=
  match o with
  | VNone => "NoneType"
  | VBool _ => "bool"
  | VInt _ => "int"
  | VFloat _ => "float"
  | VStr _ => "str"
  | VBytes _ => "bytes"
  | VList _ => "list"
  | VDict _ => "dict"
  end.

(** Exceptions.  [JSONDecodeError] is the class named by the first [except]
    clause of [handle_connection]; the others carry [str(e)], in the wording
    of CPython 3.12. *)
Inductive exn : Type :=
| JSONDecodeError
| TypeError (msg : string)
| AttributeError (msg : string)
| KeyError (key : string)
| OtherException (cls msg : string).

Inductive outcome (A : Type) : Type :=
| Returns (a : A)
| Raises (e : exn).
Arguments Returns {A} a.
Arguments Raises {A} e.

(** ** Operations of the Python object model used by the handler *)

(** A dict keeps its items in insertion order; lookup takes the first item
    with the key (the keys of a decoded dict are distinct). *)
Fixpoint dict_lookup (key : string) (kvs : list (string * value)) : option value :=
  match kvs with
  | [] => None
  | (k, v) :: rest => if String.eqb k key then Some v else dict_lookup key rest
  end.

Definition dict_has (key : string) (kvs : list (string * value)) : bool :=
  match dict_lookup key kvs with Some _ => true | None => false end.

(** [needle in hay] on two str objects: substring test. *)
Fixpoint str_contains (needle hay : string) : bool :=
  String.prefix needle hay
  || match hay with
     | EmptyString => false
     | String _ rest => str_contains needle rest
     end.

(** [o == s] for a str [s]: only an equal str is equal to a str. *)
Definition py_eq_str (o : value) (s : string) : bool :=
  match o with
  | VStr t => String.eqb t s
  | _ => false
  end.

(** [item in container] for a str [item]. *)
Definition py_contains (item : string) (container : value) : outcome bool :=
  match container with
  | VDict kvs => Returns (dict_has item kvs)
  | VList l => Returns (existsb (fun o => py_eq_str o item) l)
  | VStr s => Returns (str_contains item s)
  | VBytes _ => Raises (TypeError "a bytes-like object is required, not 'str'")
  | o => Raises (TypeError ("argument of type '" ++ type_name o ++ "' is not iterable"))
  end.

(** [o[key]] for a str [key]. *)
Definition py_getitem (o : value) (key : string) : outcome value :=
  match o with
  | VDict kvs =>
      match dict_lookup key kvs with
      | Some v => Returns v
      | None => Raises (KeyError key)
      end
  | VList _ => Raises (TypeError "list indices must be integers or slices, not str")
  | VStr _ => Raises (TypeError "string indices must be integers, not 'str'")
  | VBytes _ => Raises (TypeError "byte indices must be integers or slices, not str")
  | o => Raises (TypeError ("'" ++ type_name o ++ "' object is not subscriptable"))
  end.

(** [o.get(key, default)]: only a dict has the method. *)
Definition py_get (o : value) (key : string) (default : value) : outcome value :=
  match o with
  | VDict kvs =>
      Returns (match dict_lookup key kvs with Some v => v | None => default end)
  | o => Raises (AttributeError ("'" ++ type_name o ++ "' object has no attribute 'get'"))
  end.

Fixpoint chars (s : string) : list value :=
  match s with
  | EmptyString => []
  | String a rest => VStr (String a EmptyString) :: chars rest
  end.

(** The items a [for] loop draws from [o]: the elements of a list, the keys of
    a dict, the characters of a str, the bytes of a bytes object. *)
Definition py_iter (o : value) : outcome (list value) :=
  match o with
  | VList l => Returns l
  | VDict kvs => Returns (map (fun kv => VStr (fst kv)) kvs)
  | VStr s => Returns (chars s)
  | VBytes b => Returns (map (fun x => VInt (Z.of_N (Byte.to_N x))) b)
  | o => Raises (TypeError ("'" ++ type_name o ++ "' object is not iterable"))
  end.

(** ** The server object and the sockets *)

(** [RAGServer.__init__]: the attributes of the instance. *)
Record server : Type := Server {
  connected_clients : gset conn;
  pdf_data : value
}.

Definition RAGServer_init : server :=
  {| connected_clients := ∅; pdf_data := VNone |}.

(** [wire] lists the objects given to [json.dumps] and sent, oldest first,
    each with the socket it was sent on. *)
Record world : Type := World {
  self : server;
  wire : list (conn * value)
}.

Definition initial_world : world := {| self := RAGServer_init; wire := [] |}.

(** The frames written to [c], oldest first. *)
Definition sent_to (c : conn) (w : world) : list value :=
  map snd (List.filter (fun m => Nat.eqb (fst m) c) (wire w)).

(** ** The monad of handler code *)

Definition M (A : Type) : Type := world → outcome A * world.

#[global] Instance M_ret : MRet M := λ A a w, (Returns a, w).
#[global] Instance M_bind : MBind M := λ A B f m w,
  match m w with
  | (Returns a, w') => f a w'
  | (Raises e, w') => (Raises e, w')
  end.

Definition lift {A : Type} (r : outcome A) : M A := λ w, (r, w).

(** [await websocket.send(json.dumps(payload))] *)
Definition send (websocket : conn) (payload : value) : M unit :=
  λ w, (Returns tt, {| self := self w; wire := wire w ++ [(websocket, payload)] |}).

(** [self.pdf_data = v] *)
Definition set_pdf_data (v : value) : M unit :=
  λ w, (Returns tt,
        {| self := {| connected_clients := connected_clients (self w); pdf_data := v |};
           wire := wire w |}).

Fixpoint for_each {A : Type} (body : A → M unit) (items : list A) : M unit :=
  match items with
  | [] => mret tt
  | x :: rest => body x ;; for_each body rest
  end.

(** ** The replies *)

Definition setup_ack : value := VDict [("status", VStr "setup_complete")].

Definition pdf_ack : value :=
  VDict [("status", VStr "pdf_received");
         ("message", VStr "PDF has been processed successfully")].

Definition audio_reply (response : string) : value :=
  VDict [("text", VStr response); ("audio", VStr response)].

Definition error_reply (msg : string) : value := VDict [("error", VStr msg)].

(** ** [RAGServer.process_audio] *)
Definition process_audio (audio_data : value) : string :=
  "I received your audio input. This is a placeholder response.".

(** ** [RAGServer.handle_message] *)

(** The body of [for chunk in media_chunks]. *)
Definition on_chunk (websocket : conn) (chunk : value) : M unit :=
  mime_type ← lift (py_get chunk "mime_type" VNone);
  chunk_data ← lift (py_get chunk "data" VNone);
  if py_eq_str mime_type "application/pdf" then
    set_pdf_data chunk_data ;;
    send websocket pdf_ack
  else if py_eq_str mime_type "audio/pcm" then
    let response := process_audio chunk_data in
    send websocket (audio_reply response)
  else mret tt.

Definition handle_message (websocket : conn) (data : value) : M unit :=
  has_setup ← lift (py_contains "setup" data);
  if has_setup : bool then
    send websocket setup_ack
  else
    has_realtime_input ← lift (py_contains "realtime_input" data);
    if has_realtime_input : bool then
      input_data ← lift (py_getitem data "realtime_input");
      media_chunks ← lift (py_get input_data "media_chunks" (VList []));
      chunks ← lift (py_iter media_chunks);
      for_each (on_chunk websocket) chunks
    else mret tt.

(** ** [RAGServer.handle_connection] *)

(** [self.connected_clients.add(websocket)] *)
Definition set_add (x : conn) (s : gset conn) : gset conn := {[x]} ∪ s.

(** [self.connected_clients.remove(websocket)]: Python's [set.remove] raises
    [KeyError(websocket)] when the element is missing. *)
Inductive removal : Type :=
| Removed (s : gset conn)
| KeyErrorRaised (key : conn).

Definition set_remove (x : conn) (s : gset conn) : removal :=
  if decide (x ∈ s) then Removed (s ∖ {[x]}) else KeyErrorRaised x.

Definition with_clients (s : gset conn) (w : world) : world :=
  {| self := {| connected_clients := s; pdf_data := pdf_data (self w) |};
     wire := wire w |}.

(** How a handler ends: normally, or with the [KeyError] of the [finally]
    block escaping to the websockets library. *)
Inductive ending : Type :=
| Finished
| EscapedKeyError (websocket : conn).

(** [try: body except Exception as e: handler(e)] *)
Definition try_except {A : Type} (body : M A) (handler : exn → M A) : M A :=
  λ w, match body w with
       | (Returns a, w') => (Returns a, w')
       | (Raises e, w') => handler e w'
       end.

(** [repr] of a str without quotes, backslashes or control characters. *)
Definition repr_str (s : string) : string := "'" ++ s ++ "'".

(** What the two [except] clauses send for [e]: the fixed text for
    [json.JSONDecodeError], [str(e)] for any other exception. *)
Definition except_reply (e : exn) : value :=
  match e with
  | JSONDecodeError => error_reply "Invalid JSON format"
  | TypeError msg => error_reply msg
  | AttributeError msg => error_reply msg
  | KeyError key => error_reply (repr_str key)
  | OtherException _ msg => error_reply msg
  end.

(** The [finally] block of [handle_connection]: the connection is removed
    from the registry; nothing catches the [KeyError] of [set.remove], which
    ends the handler and leaves the server object as it is. *)
Definition finally_block (websocket : conn) (w : world) : ending * world :=
  match set_remove websocket (connected_clients (self w)) with
  | Removed s => (Finished, with_clients s w)
  | KeyErrorRaised key => (EscapedKeyError key, w)
  end.

(** A step of the whole server: handlers of several connections interleave
    on one event loop. *)
Inductive event : Type :=
| Accept (websocket : conn)
| Message (websocket : conn) (message : string)
| Close (websocket : conn).

Section Connection.

(** [json.loads], on the text of a frame. *)
Variable loads : string → outcome value.

(** The body of [async for message in websocket]. *)
Definition on_message (websocket : conn) (message : string) : M unit :=
  try_except
    (data ← lift (loads message);
     handle_message websocket data)
    (λ e, send websocket (except_reply e)).

(** [messages] are the frames received until the peer closes. *)
Definition handle_connection (websocket : conn) (messages : list string)
    (w : world) : ending * world :=
  let w1 := with_clients (set_add websocket (connected_clients (self w))) w in
  let w2 := snd (for_each (on_message websocket) messages w1) in
  finally_block websocket w2.

(** The world after an event.  A handler whose [finally] block raises ends
    there, with the [KeyError] escaping to the websockets library
    ([react_ending]); the server and the other handlers go on in the world
    it leaves. *)
Definition react (ev : event) (w : world) : world :=
  match ev with
  | Accept c => with_clients (set_add c (connected_clients (self w))) w
  | Message c message => snd (on_message c message w)
  | Close c => snd (finally_block c w)
  end.

(** How the step of an event ends for its handler. *)
Definition react_ending (ev : event) (w : world) : ending :=
  match ev with
  | Accept _ => Finished
  | Message _ _ => Finished
  | Close c => fst (finally_block c w)
  end.

Definition run (evs : list event) (w : world) : world :=
  fold_left (λ w ev, react ev w) evs w.

(** The document which the handler of connection [c] reads and writes: the
    handler is [server.handle_connection] for the single [server] of [main],
    so it is [self.pdf_data] of that object whatever [c] is. *)
Definition session_document (c : conn) (w : world) : value := pdf_data (self w).

End Connection.

(** ** A decoder for a fragment of JSON

    [json_loads] is [json.loads] of CPython 3.12 on the texts of a fragment
    of JSON, and instantiates the parameter [loads] of the handler on
    concrete frames.  It reads a text from left to right as [json.loads]
    does and stops at the first error.  It leaves the fragment, and then
    answers [NotImplementedError], which [json.loads] never does, when
    before any error it meets a backslash or a character above 127 in a
    string, a number with a fraction or an exponent, [NaN], [Infinity] or
    [-Infinity], or an array or object nested more than [max_nesting] deep
    (the depth at which [json.loads] raises [RecursionError] depends on the
    interpreter's stack).  Inside the fragment, an integer of more than 4300
    digits raises [ValueError], as the conversion to [int] does. *)

Inductive parse (A : Type) : Type :=
| Parsed (a : A) (rest : list ascii)
| Invalid
| TooLong (digits : nat)
| Unsupported.
Arguments Parsed {A} a rest.
Arguments Invalid {A}.
Arguments TooLong {A} digits.
Arguments Unsupported {A}.

Definition max_nesting : nat := 64.

(** [sys.get_int_max_str_digits()] *)
Definition int_max_str_digits : nat := 4300.

Local Open Scope char_scope.

Definition is_ws (a : ascii) : bool :=
  match a with
  | " " | "009" | "010" | "013" => true
  | _ => false
  end.

Fixpoint skip_ws (s : list ascii) : list ascii :=
  match s with
  | a :: rest => if is_ws a then skip_ws rest else s
  | [] => []
  end.

Definition digit_val (a : ascii) : option Z :=
  let n := nat_of_ascii a in
  if (48 <=? n)%nat && (n <=? 57)%nat then Some (Z.of_nat (n - 48)) else None.

Definition is_digit (a : ascii) : bool :=
  match digit_val a with Some _ => true | None => false end.

(** The digits at the head of [s]: their value after [acc], how many they
    are after [count], and what follows them. *)
Fixpoint parse_digits (s : list ascii) (acc : Z) (count : nat) : Z * nat * list ascii :=
  match s with
  | a :: rest =>
      match digit_val a with
      | Some d => parse_digits rest (10 * acc + d) (S count)
      | None => (acc, count, s)
      end
  | [] => (acc, count, [])
  end.

(** Whether [r], which follows the digits of an integer, goes on with a
    fraction (a point and a digit) or an exponent ([e] or [E], an optional
    sign, and a digit): the number is a float then. *)
Definition continues_as_float (r : list ascii) : bool :=
  match r with
  | "." :: d :: _ => is_digit d
  | "e" :: "+" :: d :: _ | "e" :: "-" :: d :: _
  | "E" :: "+" :: d :: _ | "E" :: "-" :: d :: _ => is_digit d
  | "e" :: d :: _ | "E" :: d :: _ => is_digit d
  | _ => false
  end.

(** An optional minus sign, then 0 or a digit from 1 to 9 followed by
    digits. *)
Definition parse_int (s : list ascii) : parse value :=
  let '(neg, s1) := match s with "-" :: r => (true, r) | _ => (false, s) end in
  let finish (n : Z) (count : nat) (r : list ascii) : parse value :=
    if continues_as_float r then Unsupported
    else if (int_max_str_digits <? count)%nat then TooLong count
    else Parsed (VInt (if neg then - n else n)%Z) r in
  match s1 with
  | "0" :: r => finish 0%Z 1%nat r
  | a :: r =>
      match digit_val a with
      | Some d => let '(n, count, r') := parse_digits r d 1%nat in finish n count r'
      | None => Invalid
      end
  | [] => Invalid
  end.

(** The characters of a string up to its closing quote; [s] starts after the
    opening quote. *)
Fixpoint parse_string (s : list ascii) : parse string :=
  match s with
  | [] => Invalid
  | "034" :: rest => Parsed EmptyString rest
  | "\" :: _ => Unsupported
  | a :: rest =>
      if (nat_of_ascii a <? 32)%nat then Invalid
      else if (127 <? nat_of_ascii a)%nat then Unsupported
      else match parse_string rest with
           | Parsed t rest' => Parsed (String a t) rest'
           | Invalid => Invalid
           | TooLong digits => TooLong digits
           | Unsupported => Unsupported
           end
  end.

(** [d[key] = v] on a dict under construction: a repeated key keeps its place
    and takes the new value. *)
Fixpoint dict_set (key : string) (v : value) (kvs : list (string * value))
    : list (string * value) :=
  match kvs with
  | [] => [(key, v)]
  | (k, x) :: rest =>
      if String.eqb k key then (k, v) :: rest else (k, x) :: dict_set key v rest
  end.

(** [parse_value] reads a value which starts at the head of [s];
    [parse_elems] the elements of an array, from the first character of an
    element; [parse_members] the members of an object, from the character
    after the opening quote of a key.  [depth] is how many more arrays and
    objects may open around the value. *)
Fixpoint parse_value (fuel depth : nat) (s : list ascii) {struct fuel} : parse value :=
  match fuel with
  | O => Unsupported
  | S n =>
      match s with
      | "n" :: "u" :: "l" :: "l" :: r => Parsed VNone r
      | "t" :: "r" :: "u" :: "e" :: r => Parsed (VBool true) r
      | "f" :: "a" :: "l" :: "s" :: "e" :: r => Parsed (VBool false) r
      | "N" :: "a" :: "N" :: _ => Unsupported
      | "I" :: "n" :: "f" :: "i" :: "n" :: "i" :: "t" :: "y" :: _ => Unsupported
      | "-" :: "I" :: "n" :: "f" :: "i" :: "n" :: "i" :: "t" :: "y" :: _ => Unsupported
      | "034" :: r =>
          match parse_string r with
          | Parsed t r' => Parsed (VStr t) r'
          | Invalid => Invalid
          | TooLong digits => TooLong digits
          | Unsupported => Unsupported
          end
      | "[" :: r =>
          match depth with
          | O => Unsupported
          | S depth' =>
              match skip_ws r with
              | "]" :: r' => Parsed (VList []) r'
              | r' => parse_elems n depth' r' []
              end
          end
      | "{" :: r =>
          match depth with
          | O => Unsupported
          | S depth' =>
              match skip_ws r with
              | "}" :: r' => Parsed (VDict []) r'
              | "034" :: r' => parse_members n depth' r' []
              | _ => Invalid
              end
          end
      | _ => parse_int s
      end
  end
with parse_elems (fuel depth : nat) (s : list ascii) (acc : list value) {struct fuel}
    : parse value :=
  match fuel with
  | O => Unsupported
  | S n =>
      match parse_value n depth s with
      | Parsed v r =>
          match skip_ws r with
          | "]" :: r' => Parsed (VList (rev (v :: acc))) r'
          | "," :: r' => parse_elems n depth (skip_ws r') (v :: acc)
          | _ => Invalid
          end
      | Invalid => Invalid
      | TooLong digits => TooLong digits
      | Unsupported => Unsupported
      end
  end
with parse_members (fuel depth : nat) (s : list ascii) (acc : list (string * value))
    {struct fuel} : parse value :=
  match fuel with
  | O => Unsupported
  | S n =>
      match parse_string s with
      | Parsed key r =>
          match skip_ws r with
          | ":" :: r1 =>
              match parse_value n depth (skip_ws r1) with
              | Parsed v r2 =>
                  match skip_ws r2 with
                  | "}" :: r3 => Parsed (VDict (dict_set key v acc)) r3
                  | "," :: r3 =>
                      match skip_ws r3 with
                      | "034" :: r4 => parse_members n depth r4 (dict_set key v acc)
                      | _ => Invalid
                      end
                  | _ => Invalid
                  end
              | Invalid => Invalid
              | TooLong digits => TooLong digits
              | Unsupported => Unsupported
              end
          | _ => Invalid
          end
      | Invalid => Invalid
      | TooLong digits => TooLong digits
      | Unsupported => Unsupported
      end
  end.

Local Close Scope char_scope.

(** Frame texts are written below with ['] for the double quote. *)
Fixpoint dq (s : string) : string :=
  match s with
  | EmptyString => EmptyString
  | String a rest =>
      String (if Ascii.eqb a "'"%char then "034"%char else a) (dq rest)
  end.

(** [str(e)] of the [ValueError] which [int] raises on [digits] digits. *)
Definition int_limit_message (digits : nat) : string :=
  "Exceeds the limit (" ++ NilEmpty.string_of_uint (Nat.to_uint int_max_str_digits)
  ++ " digits) for integer string conversion: value has "
  ++ NilEmpty.string_of_uint (Nat.to_uint digits)
  ++ " digits; use sys.set_int_max_str_digits() to increase the limit".

Definition json_loads (message : string) : outcome value :=
  let s := list_ascii_of_string message in
  match parse_value (2 * length s + 2) max_nesting (skip_ws s) with
  | Parsed v rest =>
      match skip_ws rest with
      | [] => Returns v
      | _ => Raises JSONDecodeError
      end
  | Invalid => Raises JSONDecodeError
  | TooLong digits => Raises (OtherException "ValueError" (int_limit_message digits))
  | Unsupported =>
      Raises (OtherException "NotImplementedError" "outside the modelled fragment of JSON")
  end.

(** ** Definitions which follow the words of the specification *)

(** The specification's "base64-decoded bytes" of a text, after RFC 4648:
    groups of four characters of the standard alphabet, the last one padded
    with [=]; [None] for a text which is not base64. *)
Definition b64_index (a : ascii) : option N :=
  let n := N_of_ascii a in
  if (65 <=? n)%N && (n <=? 90)%N then Some (n - 65)%N
  else if (97 <=? n)%N && (n <=? 122)%N then Some (n - 71)%N
  else if (48 <=? n)%N && (n <=? 57)%N then Some (n + 4)%N
  else if (n =? 43)%N then Some 62%N
  else if (n =? 47)%N then Some 63%N
  else None.

Definition byte_of (n : N) : byte := byte_of_ascii (ascii_of_N (n mod 256)).

Fixpoint b64_groups (s : list ascii) : option (list byte) :=
  match s with
  | [] => Some []
  | [a; b; "="; "="]%char =>
      x ← b64_index a; y ← b64_index b;
      Some [byte_of (x * 4 + y / 16)]
  | [a; b; c; "="]%char =>
      x ← b64_index a; y ← b64_index b; z ← b64_index c;
      Some [byte_of (x * 4 + y / 16); byte_of (y * 16 + z / 4)]
  | a :: b :: c :: d :: rest =>
      x ← b64_index a; y ← b64_index b; z ← b64_index c; t ← b64_index d;
      bytes ← b64_groups rest;
      Some (byte_of (x * 4 + y / 16) :: byte_of (y * 16 + z / 4)
            :: byte_of (z * 64 + t) :: bytes)
  | _ => None
  end.

Definition b64decode (data : string) : option (list byte) :=
  b64_groups (list_ascii_of_string data).

(** A decoded frame of the shape
    [{"realtime_input": {"media_chunks": [...]}}] without a ["setup"] key,
    and its chunks; a missing ["media_chunks"] stands for no chunk. *)
Inductive realtime_input_frame : value → list value → Prop :=
| RealtimeInput (top inner : list (string * value)) (chunks : list value) :
    dict_lookup "setup" top = None →
    dict_lookup "realtime_input" top = Some (VDict inner) →
    dict_lookup "media_chunks" inner = Some (VList chunks) →
    realtime_input_frame (VDict top) chunks
| RealtimeInputBare (top inner : list (string * value)) :
    dict_lookup "setup" top = None →
    dict_lookup "realtime_input" top = Some (VDict inner) →
    dict_lookup "media_chunks" inner = None →
    realtime_input_frame (VDict top) [].

(** The world after one more frame was written to [c]. *)
Definition replied (c : conn) (payload : value) (w : world) : world :=
  {| self := self w; wire := wire w ++ [(c, payload)] |}.

(** The world after [self.pdf_data] was bound to [v]. *)
Definition with_document (v : value) (w : world) : world :=
  {| self := {| connected_clients := connected_clients (self w); pdf_data := v |};
     wire := wire w |}.

(** The run of the loop over the chunks of a frame, with what each chunk
    wrote: [chunks_run c w chunks outs r w'] when the loop, started in [w],
    handles the chunks from left to right, the i-th handled chunk writes
    [outs !! i], and the loop ends in [w'], normally or with the exception
    of the last handled chunk. *)
Inductive chunks_run (c : conn) :
    world → list value → list (list (conn * value)) → outcome unit → world → Prop :=
| run_done (w : world) :
    chunks_run c w [] [] (Returns tt) w
| run_next (w w1 w2 : world) chunk rest (out : list (conn * value)) outs r :
    on_chunk c chunk w = (Returns tt, w1) →
    wire w1 = (wire w ++ out)%list →
    chunks_run c w1 rest outs r w2 →
    chunks_run c w (chunk :: rest) (out :: outs) r w2
| run_abort (w w1 : world) chunk rest (out : list (conn * value)) e :
    on_chunk c chunk w = (Raises e, w1) →
    wire w1 = (wire w ++ out)%list →
    chunks_run c w (chunk :: rest) [out] (Raises e) w1.

(** Frames used as concrete inputs. *)
Definition frame_pdf_QUJD : string :=
  dq "{'realtime_input': {'media_chunks': [{'mime_type': 'application/pdf', 'data': 'QUJD'}]}}".

Definition frame_pdf_REVG : string :=
  dq "{'realtime_input': {'media_chunks': [{'mime_type': 'application/pdf', 'data': 'REVG'}]}}".

Definition frame_two_pdfs : string :=
  dq "{'realtime_input': {'media_chunks': [{'mime_type': 'application/pdf', 'data': 'QUJD'}, {'mime_type': 'application/pdf', 'data': 'REVG'}]}}".

Definition frame_pdf_no_data : string :=
  dq "{'realtime_input': {'media_chunks': [{'mime_type': 'application/pdf'}]}}".

Definition frame_setup_and_input : string :=
  dq "{'setup': {}, 'realtime_input': {'media_chunks': [{'mime_type': 'application/pdf', 'data': 'QUJD'}]}}".

Definition frame_mixed : string :=
  dq "{'realtime_input': {'media_chunks': [{'mime_type': 'audio/pcm', 'data': 'AAAA'}, {'mime_type': 'text/plain', 'data': 'aGk='}, {'mime_type': 'application/pdf', 'data': 'QUJD'}, {}]}}".

Definition frame_bad_chunk : string :=
  dq "{'realtime_input': {'media_chunks': ['x', {'mime_type': 'application/pdf', 'data': 'QUJD'}]}}".

Definition frame_other_shape : string := dq "{'ping': 1}".

Definition frame_number : string := "5".

Definition frame_not_json : string := "{not json".

Fixpoint ones (n : nat) : string :=
  match n with
  | O => EmptyString
  | S k => String "1"%char (ones k)
  end.

(** An array left open after an integer of 4301 digits. *)
Definition frame_long_integer : string := String "["%char (ones 4301).

(** * Properties *)

Local Open Scope list_scope.
Local Open Scope nat_scope.

(** ** Evaluation lemmas *)

Lemma py_eq_str_true (o : value) (s : string) : py_eq_str o s = true ↔ o = VStr s.
Proof.
  destruct o; simpl; try (split; [discriminate | intros [=]]).
  rewrite String.eqb_eq. split; [intros -> | intros [=]]; done.
Qed.

Lemma py_eq_str_false (o : value) (s : string) : o ≠ VStr s → py_eq_str o s = false.
Proof.
  intros Hne. destruct (py_eq_str o s) eqn:E; [|done].
  apply py_eq_str_true in E. contradiction.
Qed.

Lemma dict_has_lookup (key : string) (kvs : list (string * value)) :
  dict_has key kvs = false ↔ dict_lookup key kvs = None.
Proof. unfold dict_has. destruct (dict_lookup key kvs); split; done. Qed.

(** The loop body on a mapping: a chunk is routed by its ["mime_type"], a
    missing key reads as [None]. *)
Lemma on_chunk_dict (c : conn) (kvs : list (string * value)) (w : world) :
  on_chunk c (VDict kvs) w =
    let mime_type := default VNone (dict_lookup "mime_type" kvs) in
    let chunk_data := default VNone (dict_lookup "data" kvs) in
    if py_eq_str mime_type "application/pdf"
    then (Returns tt, replied c pdf_ack (with_document chunk_data w))
    else if py_eq_str mime_type "audio/pcm"
    then (Returns tt, replied c (audio_reply (process_audio chunk_data)) w)
    else (Returns tt, w).
Proof.
  unfold on_chunk, mbind, M_bind, lift; simpl.
  destruct (dict_lookup "mime_type" kvs) as [m|]; simpl;
    [destruct (py_eq_str m "application/pdf"); [reflexivity|];
     destruct (py_eq_str m "audio/pcm"); reflexivity
    | reflexivity].
Qed.

(** The loop body on anything else: [chunk.get] raises, nothing is written. *)
Lemma on_chunk_not_dict (c : conn) (chunk : value) (w : world) :
  (∀ kvs, chunk ≠ VDict kvs) →
  on_chunk c chunk w =
    (Raises (AttributeError ("'" ++ type_name chunk ++ "' object has no attribute 'get'")%string), w).
Proof.
  intros Hnd. destruct chunk; try reflexivity. exfalso. by eapply Hnd.
Qed.

(** What one chunk writes: at most one frame, and it leaves the set of
    clients alone. *)
Lemma on_chunk_out (c : conn) (chunk : value) (w : world) :
  ∃ out : list (conn * value),
    wire (snd (on_chunk c chunk w)) = (wire w ++ out)%list
    ∧ length out ≤ 1
    ∧ Forall (λ m, fst m = c) out
    ∧ connected_clients (self (snd (on_chunk c chunk w))) = connected_clients (self w).
Proof.
  destruct chunk;
    try (exists []; simpl; rewrite app_nil_r; repeat split; auto; lia).
  rewrite on_chunk_dict. simpl.
  destruct (py_eq_str _ "application/pdf").
  { eexists [_]. simpl. repeat split; auto. }
  destruct (py_eq_str _ "audio/pcm").
  { eexists [_]. simpl. repeat split; auto. }
  exists []. simpl. rewrite app_nil_r. repeat split; auto.
Qed.

Lemma for_each_cons {A : Type} (body : A → M unit) (x : A) (rest : list A) (w : world) :
  for_each body (x :: rest) w =
    match body x w with
    | (Returns _, w1) => for_each body rest w1
    | (Raises e, w1) => (Raises e, w1)
    end.
Proof. reflexivity. Qed.

Lemma for_each_app {A : Type} (body : A → M unit) (xs ys : list A) (w : world) :
  for_each body (xs ++ ys) w =
    match for_each body xs w with
    | (Returns _, w1) => for_each body ys w1
    | (Raises e, w1) => (Raises e, w1)
    end.
Proof.
  revert w. induction xs as [|x xs IH]; intros w; [reflexivity|].
  simpl app. rewrite !for_each_cons.
  destruct (body x w) as [[[]|e] w1]; [apply IH | reflexivity].
Qed.

(** A frame of the realtime-input shape runs the loop over its chunks. *)
Lemma handle_message_realtime (c : conn) (data : value) (chunks : list value) (w : world) :
  realtime_input_frame data chunks →
  handle_message c data w = for_each (on_chunk c) chunks w.
Proof.
  intros [top inner chs Hs Hr Hm | top inner Hs Hr Hm];
    unfold handle_message, mbind, M_bind, lift; simpl;
    unfold dict_has; rewrite Hs, Hr; simpl; rewrite Hm; reflexivity.
Qed.

(** The loop over the chunks, as a run with its outputs. *)
Lemma for_each_chunks_run (c : conn) (chunks : list value) (w : world) :
  ∃ outs : list (list (conn * value)),
    chunks_run c w chunks outs
      (fst (for_each (on_chunk c) chunks w)) (snd (for_each (on_chunk c) chunks w))
    ∧ Forall (λ out, length out ≤ 1) outs
    ∧ length outs ≤ length chunks
    ∧ (fst (for_each (on_chunk c) chunks w) = Returns tt → length outs = length chunks).
Proof.
  revert w. induction chunks as [|chunk rest IH]; intros w.
  { exists []. simpl. repeat split; auto. constructor. }
  destruct (on_chunk_out c chunk w) as (out & Hout & Hlen & _ & _).
  rewrite for_each_cons.
  destruct (on_chunk c chunk w) as [[[]|e] w1] eqn:E; simpl in Hout.
  - destruct (IH w1) as (outs & Hrun & Hall & Hle & Heq).
    exists (out :: outs). repeat split.
    + eapply run_next; eauto.
    + by constructor.
    + simpl; lia.
    + intros H. simpl. f_equal. auto.
  - exists [out]. simpl. repeat split.
    + eapply run_abort; eauto.
    + by constructor.
    + lia.
    + discriminate.
Qed.

(** The frames written during a run are those of its chunks, in order. *)
Lemma chunks_run_wire (c : conn) (w w' : world) chunks outs r :
  chunks_run c w chunks outs r w' → wire w' = (wire w ++ concat outs)%list.
Proof.
  induction 1 as [w | w w1 w2 chunk rest out outs r _ Hw _ IH | w w1 chunk rest out e _ Hw].
  - simpl. by rewrite app_nil_r.
  - rewrite IH, Hw. simpl. by rewrite app_assoc.
  - rewrite Hw. simpl. by rewrite app_nil_r.
Qed.

Lemma for_each_on_chunk_clients (c : conn) (chunks : list value) (w : world) :
  connected_clients (self (snd (for_each (on_chunk c) chunks w)))
  = connected_clients (self w).
Proof.
  revert w. induction chunks as [|chunk rest IH]; intros w; [reflexivity|].
  rewrite for_each_cons.
  destruct (on_chunk_out c chunk w) as (_ & _ & _ & _ & Hc).
  destruct (on_chunk c chunk w) as [[[]|e] w1]; simpl in *; [rewrite IH|]; done.
Qed.

(** [handle_message] never rebinds [connected_clients]. *)
Lemma handle_message_clients (c : conn) (data : value) (w : world) :
  connected_clients (self (snd (handle_message c data w))) = connected_clients (self w).
Proof.
  unfold handle_message, mbind, M_bind, lift.
  destruct (py_contains "setup" data) as [[]|e]; simpl; try reflexivity.
  destruct (py_contains "realtime_input" data) as [[]|e]; simpl; try reflexivity.
  destruct (py_getitem data "realtime_input") as [input_data|e]; simpl; try reflexivity.
  destruct (py_get input_data "media_chunks" (VList [])) as [mc|e]; simpl; try reflexivity.
  destruct (py_iter mc) as [chunks|e]; simpl; try reflexivity.
  apply for_each_on_chunk_clients.
Qed.

(** The loop over the chunks raises [AttributeError] only. *)
Lemma for_each_on_chunk_raises (c : conn) (chunks : list value) (w : world) (e : exn) :
  fst (for_each (on_chunk c) chunks w) = Raises e → ∃ msg, e = AttributeError msg.
Proof.
  revert w. induction chunks as [|chunk rest IH]; intros w; [discriminate|].
  rewrite for_each_cons.
  destruct chunk; try (simpl; intros [= <-]; eauto; fail).
  rewrite on_chunk_dict. simpl.
  destruct (py_eq_str _ "application/pdf"); [apply IH|].
  destruct (py_eq_str _ "audio/pcm"); apply IH.
Qed.

(** What the code of [handle_message] itself raises, [send] apart (it is
    taken to succeed): [TypeError] from the membership tests, the subscript
    and the loop header, [AttributeError] from the [get] calls; the key read
    by [data["realtime_input"]] was tested first, so that subscript raises no
    [KeyError]. *)
Lemma handle_message_raises (c : conn) (data : value) (w : world) (e : exn) :
  fst (handle_message c data w) = Raises e →
  ∃ msg, e = TypeError msg ∨ e = AttributeError msg.
Proof.
  unfold handle_message, mbind, M_bind, lift.
  destruct data; simpl; try (intros [= <-]; eauto; fail).
  - destruct (str_contains "setup" s); simpl; [discriminate|].
    destruct (str_contains "realtime_input" s); simpl; [|discriminate].
    intros [= <-]; eauto.
  - destruct (existsb _ l); simpl; [discriminate|].
    destruct (existsb _ l); simpl; [|discriminate].
    intros [= <-]; eauto.
  - unfold dict_has.
    destruct (dict_lookup "setup" kvs); simpl; [discriminate|].
    destruct (dict_lookup "realtime_input" kvs) as [input_data|]; simpl; [|discriminate].
    destruct input_data; simpl; try (intros [= <-]; eauto; fail).
    destruct (dict_lookup "media_chunks" kvs0) as [mc|]; simpl; [|discriminate].
    destruct mc; simpl; try (intros [= <-]; eauto; fail);
      intros H; apply for_each_on_chunk_raises in H as [msg ->]; eauto.
Qed.

Lemma dict_lookup_app (key : string) (kvs more : list (string * value)) :
  dict_lookup key (kvs ++ more) =
    match dict_lookup key kvs with
    | Some v => Some v
    | None => dict_lookup key more
    end.
Proof.
  induction kvs as [|[k v] kvs IH]; simpl; [reflexivity|].
  destruct (String.eqb k key); [reflexivity | apply IH].
Qed.

(** [set.remove] on a member and on a stranger. *)
Lemma set_remove_member (x : conn) (s : gset conn) :
  x ∈ s → set_remove x s = Removed (s ∖ {[x]}).
Proof. intros Hx. unfold set_remove. by rewrite decide_True. Qed.

Lemma set_remove_absent (x : conn) (s : gset conn) :
  x ∉ s → set_remove x s = KeyErrorRaised x.
Proof. intros Hx. unfold set_remove. by rewrite decide_False. Qed.

Section Properties.

Variable loads : string → outcome value.

(** ** The frame boundary *)

Lemma on_message_decoded (c : conn) (message : string) (data : value) (w : world) :
  loads message = Returns data →
  on_message loads c message w =
    match handle_message c data w with
    | (Returns _, w') => (Returns tt, w')
    | (Raises e, w') => (Returns tt, replied c (except_reply e) w')
    end.
Proof.
  intros Hl. unfold on_message, try_except, mbind, M_bind, lift. rewrite Hl.
  destruct (handle_message c data w) as [[[]|e] w']; reflexivity.
Qed.

Lemma on_message_undecoded (c : conn) (message : string) (e : exn) (w : world) :
  loads message = Raises e →
  on_message loads c message w = (Returns tt, replied c (except_reply e) w).
Proof.
  intros Hl. unfold on_message, try_except, mbind, M_bind, lift. by rewrite Hl.
Qed.

(** No exception leaves the body of the [async for] loop. *)
Lemma on_message_returns (c : conn) (message : string) (w : world) :
  fst (on_message loads c message w) = Returns tt.
Proof.
  destruct (loads message) as [data|e] eqn:Hl.
  - rewrite (on_message_decoded _ _ data) by done.
    by destruct (handle_message c data w) as [[[]|e] w'].
  - by rewrite (on_message_undecoded _ _ e).
Qed.

Lemma on_message_clients (c : conn) (message : string) (w : world) :
  connected_clients (self (snd (on_message loads c message w)))
  = connected_clients (self w).
Proof.
  destruct (loads message) as [data|e] eqn:Hl.
  - rewrite (on_message_decoded _ _ data) by done.
    pose proof (handle_message_clients c data w) as Hc.
    by destruct (handle_message c data w) as [[[]|e] w'].
  - by rewrite (on_message_undecoded _ _ e).
Qed.

Lemma for_each_on_message (c : conn) (messages : list string) (w : world) :
  fst (for_each (on_message loads c) messages w) = Returns tt
  ∧ connected_clients (self (snd (for_each (on_message loads c) messages w)))
    = connected_clients (self w).
Proof.
  revert w. induction messages as [|m rest IH]; intros w; [done|].
  rewrite for_each_cons.
  pose proof (on_message_returns c m w) as Hr.
  pose proof (on_message_clients c m w) as Hc.
  destruct (on_message loads c m w) as [[[]|e] w1]; simpl in *; [|done].
  destruct (IH w1) as [H1 H2]. by rewrite H1, H2.
Qed.

(** X17.  The handler of a connection is the run of its own events: it
    registers the connection, handles every frame it receives in order,
    whatever the frames before held, and removes the connection. *)
Lemma handle_connection_run (c : conn) (messages : list string) (w : world) :
  snd (handle_connection loads c messages w)
  = run loads (Accept c :: map (Message c) messages ++ [Close c]) w.
Proof.
  unfold handle_connection, run. simpl fold_left.
  generalize (with_clients (set_add c (connected_clients (self w))) w) as w1.
  clear w. induction messages as [|m rest IH]; intros w1.
  - reflexivity.
  - rewrite for_each_cons. simpl map. simpl fold_left.
    pose proof (on_message_returns c m w1) as Hr.
    destruct (on_message loads c m w1) as [[[]|e] w2]; simpl in *; [|done].
    apply IH.
Qed.

(** In the handler itself the connection is still registered when the
    [finally] block runs: the removal does not raise. *)
Lemma handle_connection_finishes (c : conn) (messages : list string) (w : world) :
  fst (handle_connection loads c messages w) = Finished.
Proof.
  unfold handle_connection, finally_block.
  destruct (for_each_on_message c messages
              (with_clients (set_add c (connected_clients (self w))) w)) as [_ Hsame].
  rewrite set_remove_member; [reflexivity|].
  rewrite Hsame. unfold set_add. simpl. apply elem_of_union_l, elem_of_singleton_2.
  reflexivity.
Qed.

(** ** The setup branch *)

(** C5.  A frame whose top-level mapping has a ["setup"] key, whatever its
    value and whatever else the mapping holds (a ["realtime_input"] key
    too), is answered by exactly one frame, the setup acknowledgement
    [{"status": "setup_complete"}]; the server object is left as it was, so
    no chunk of the frame was dispatched. *)
Theorem setup_frame_acknowledged (c : conn) (message : string)
    (top : list (string * value)) (v : value) (w : world) :
  loads message = Returns (VDict top) →
  dict_lookup "setup" top = Some v →
  fst (on_message loads c message w) = Returns tt
  ∧ self (snd (on_message loads c message w)) = self w
  ∧ wire (snd (on_message loads c message w))
    = wire w ++ [(c, VDict [("status", VStr "setup_complete")])].
Proof.
  intros Hl Hs. rewrite (on_message_decoded _ _ _ _ Hl).
  unfold handle_message, mbind, M_bind, lift; simpl.
  unfold dict_has. rewrite Hs. simpl. done.
Qed.

(** ** Frames which are not JSON *)

(** C6, amended.  A frame on which [json.loads] raises is answered by
    exactly one frame of the error shape: [{"error": "Invalid JSON format"}]
    when the exception is [JSONDecodeError], and [{"error": str(e)}] for any
    other exception [e] (the second [except] clause).  In both cases no
    exception leaves the loop body, the server object (and with it the
    registration of the connection) is unchanged, and the loop goes on with
    the frames which follow on the connection. *)
Theorem undecodable_frame_is_answered (c : conn) (message : string) (e : exn)
    (w : world) :
  loads message = Raises e →
  fst (on_message loads c message w) = Returns tt
  ∧ self (snd (on_message loads c message w)) = self w
  ∧ wire (snd (on_message loads c message w))
    = wire w
      ++ [(c, VDict [("error",
                      VStr match e with
                           | JSONDecodeError => "Invalid JSON format"
                           | TypeError msg => msg
                           | AttributeError msg => msg
                           | KeyError key => ("'" ++ key ++ "'")%string
                           | OtherException _ msg => msg
                           end)])]
  ∧ (∀ rest : list string,
       for_each (on_message loads c) (message :: rest) w
       = for_each (on_message loads c) rest (snd (on_message loads c message w)))
  ∧ (∀ evs : list event,
       run loads (Message c message :: evs) w
       = run loads evs (snd (on_message loads c message w))).
Proof.
  intros Hl. pose proof (on_message_undecoded c message _ w Hl) as Hstep.
  split; [by rewrite Hstep|]. split; [by rewrite Hstep|]. split; [|split].
  - rewrite Hstep. by destruct e.
  - intros rest. rewrite for_each_cons, Hstep. reflexivity.
  - reflexivity.
Qed.

(** ** Frames of neither shape *)

(** C4, amended.  A frame which decodes to a mapping with neither a
    ["setup"] nor a ["realtime_input"] key is dropped: nothing is written,
    nothing is raised, the world is unchanged. *)
Theorem unrecognized_mapping_is_ignored (c : conn) (message : string)
    (top : list (string * value)) (w : world) :
  loads message = Returns (VDict top) →
  dict_lookup "setup" top = None →
  dict_lookup "realtime_input" top = None →
  on_message loads c message w = (Returns tt, w).
Proof.
  intros Hl Hs Hr. rewrite (on_message_decoded _ _ _ _ Hl).
  unfold handle_message, mbind, M_bind, lift; simpl.
  unfold dict_has. rewrite Hs, Hr. reflexivity.
Qed.

(** ** Document chunks *)

(** C2, amended.  A chunk whose ["mime_type"] is ["application/pdf"] and
    whose ["data"] is the text [d] binds [self.pdf_data] to [d] itself, the
    base64 text as received and not its decoding, and writes the
    document-received acknowledgement; so does a realtime_input frame made
    of that chunk. *)
Theorem pdf_chunk_stores_data_as_received (c : conn) (message : string)
    (data : value) (kvs : list (string * value)) (d : string) (w : world) :
  dict_lookup "mime_type" kvs = Some (VStr "application/pdf") →
  dict_lookup "data" kvs = Some (VStr d) →
  loads message = Returns data →
  realtime_input_frame data [VDict kvs] →
  (∀ w0 : world,
     fst (on_chunk c (VDict kvs) w0) = Returns tt
     ∧ pdf_data (self (snd (on_chunk c (VDict kvs) w0))) = VStr d
     ∧ wire (snd (on_chunk c (VDict kvs) w0))
       = wire w0
         ++ [(c, VDict [("status", VStr "pdf_received");
                        ("message", VStr "PDF has been processed successfully")])])
  ∧ fst (on_message loads c message w) = Returns tt
  ∧ pdf_data (self (snd (on_message loads c message w))) = VStr d
  ∧ connected_clients (self (snd (on_message loads c message w)))
    = connected_clients (self w)
  ∧ wire (snd (on_message loads c message w))
    = wire w
      ++ [(c, VDict [("status", VStr "pdf_received");
                     ("message", VStr "PDF has been processed successfully")])].
Proof.
  intros Hm Hd Hl Hf.
  assert (Hchunk : ∀ w0, on_chunk c (VDict kvs) w0
                   = (Returns tt, replied c pdf_ack (with_document (VStr d) w0))).
  { intros w0. rewrite on_chunk_dict, Hm, Hd. reflexivity. }
  split.
  - intros w0. rewrite Hchunk. done.
  - rewrite (on_message_decoded _ _ _ _ Hl), (handle_message_realtime _ _ _ _ Hf).
    rewrite for_each_cons, Hchunk. done.
Qed.

(** C7.  Last write wins: after two document chunks with the payloads [d1]
    and then [d2], in one frame or in two successive frames of a
    connection, [self.pdf_data] is [d2] alone. *)
Theorem pdf_last_write_wins (c : conn) (k1 k2 : list (string * value))
    (d1 d2 : value) (both first second : string) (fboth f1 f2 : value) (w : world) :
  dict_lookup "mime_type" k1 = Some (VStr "application/pdf") →
  dict_lookup "data" k1 = Some d1 →
  dict_lookup "mime_type" k2 = Some (VStr "application/pdf") →
  dict_lookup "data" k2 = Some d2 →
  loads both = Returns fboth → realtime_input_frame fboth [VDict k1; VDict k2] →
  loads first = Returns f1 → realtime_input_frame f1 [VDict k1] →
  loads second = Returns f2 → realtime_input_frame f2 [VDict k2] →
  pdf_data (self (snd (on_chunk c (VDict k2) (snd (on_chunk c (VDict k1) w))))) = d2
  ∧ pdf_data (self (run loads [Message c both] w)) = d2
  ∧ pdf_data (self (run loads [Message c first; Message c second] w)) = d2.
Proof.
  intros Hm1 Hd1 Hm2 Hd2 Hlb Hfb Hl1 Hf1 Hl2 Hf2.
  assert (Hc1 : ∀ w0, on_chunk c (VDict k1) w0
                = (Returns tt, replied c pdf_ack (with_document d1 w0))).
  { intros w0. rewrite on_chunk_dict, Hm1, Hd1. reflexivity. }
  assert (Hc2 : ∀ w0, on_chunk c (VDict k2) w0
                = (Returns tt, replied c pdf_ack (with_document d2 w0))).
  { intros w0. rewrite on_chunk_dict, Hm2, Hd2. reflexivity. }
  repeat split.
  - rewrite Hc1, Hc2. reflexivity.
  - unfold run; simpl.
    rewrite (on_message_decoded _ _ _ _ Hlb), (handle_message_realtime _ _ _ _ Hfb).
    rewrite for_each_cons, Hc1. cbv iota.
    rewrite for_each_cons, Hc2. reflexivity.
  - unfold run; simpl.
    rewrite (on_message_decoded _ _ _ _ Hl1), (handle_message_realtime _ _ _ _ Hf1).
    rewrite for_each_cons, Hc1. simpl.
    rewrite (on_message_decoded _ _ _ _ Hl2), (handle_message_realtime _ _ _ _ Hf2).
    rewrite for_each_cons, Hc2. reflexivity.
Qed.

(** C1, amended.  The document is one attribute of the one server object,
    shared by the handlers of all connections: a document chunk received on
    connection [A] binds the document which connection [B] sees to the data
    of that chunk.  What the frame leaves alone for [B] is its registration
    and the frames written to it (the acknowledgement goes to [A]). *)
Theorem document_is_shared_between_connections (A B : conn) (message : string)
    (data : value) (kvs : list (string * value)) (d : value) (w : world) :
  A ≠ B →
  loads message = Returns data →
  realtime_input_frame data [VDict kvs] →
  dict_lookup "mime_type" kvs = Some (VStr "application/pdf") →
  dict_lookup "data" kvs = Some d →
  session_document B (react loads (Message A message) w) = d
  ∧ session_document A (react loads (Message A message) w) = d
  ∧ connected_clients (self (react loads (Message A message) w))
    = connected_clients (self w)
  ∧ sent_to B (react loads (Message A message) w) = sent_to B w
  ∧ sent_to A (react loads (Message A message) w)
    = sent_to A w
      ++ [VDict [("status", VStr "pdf_received");
                 ("message", VStr "PDF has been processed successfully")]].
Proof.
  intros Hne Hl Hf Hm Hd. unfold react, session_document.
  rewrite (on_message_decoded _ _ _ _ Hl), (handle_message_realtime _ _ _ _ Hf).
  rewrite for_each_cons, on_chunk_dict, Hm, Hd. simpl.
  repeat split; unfold sent_to; simpl; rewrite List.filter_app, map_app; simpl.
  - assert (E : Nat.eqb A B = false) by (apply Nat.eqb_neq; done).
    rewrite E. simpl. by rewrite app_nil_r.
  - by rewrite Nat.eqb_refl.
Qed.

(** ** The loop over the chunks *)

(** C8.  The chunks of a realtime_input frame are handled from left to
    right, each in the world left by the one before it; each handled chunk
    writes at most one frame; what [handle_message] writes for the frame is
    the concatenation, in order, of what its chunks wrote.  A chunk which
    raises (one which is not a mapping) writes nothing itself, ends the
    loop, and is answered by the one error frame of the frame boundary;
    when every chunk is a mapping, every chunk is handled. *)
Theorem chunks_processed_in_order (c : conn) (message : string) (data : value)
    (chunks : list value) (w : world) :
  loads message = Returns data →
  realtime_input_frame data chunks →
  ∃ outs : list (list (conn * value)),
    chunks_run c w chunks outs
      (fst (handle_message c data w)) (snd (handle_message c data w))
    ∧ Forall (λ out, length out ≤ 1) outs
    ∧ wire (snd (handle_message c data w)) = wire w ++ concat outs
    ∧ wire (snd (on_message loads c message w))
      = wire w ++ concat outs
        ++ match fst (handle_message c data w) with
           | Returns _ => []
           | Raises e => [(c, except_reply e)]
           end
    ∧ length outs ≤ length chunks
    ∧ (Forall (λ chunk, ∃ kvs, chunk = VDict kvs) chunks →
       fst (handle_message c data w) = Returns tt ∧ length outs = length chunks).
Proof.
  intros Hl Hf.
  rewrite (on_message_decoded _ _ _ _ Hl), (handle_message_realtime _ _ _ _ Hf).
  destruct (for_each_chunks_run c chunks w) as (outs & Hrun & Hall & Hle & Heq).
  exists outs. pose proof (chunks_run_wire _ _ _ _ _ _ Hrun) as Hwire.
  split; [exact Hrun|]. split; [exact Hall|]. split; [exact Hwire|].
  split; [|split; [exact Hle|]].
  - destruct (for_each (on_chunk c) chunks w) as [[[]|e] w']; simpl in *.
    + by rewrite app_nil_r.
    + by rewrite Hwire, app_assoc.
  - intros Hdicts.
    assert (Hret : fst (for_each (on_chunk c) chunks w) = Returns tt).
    { clear -Hdicts. revert w.
      induction Hdicts as [|chunk rest [kvs ->] _ IH]; intros w; [reflexivity|].
      rewrite for_each_cons, on_chunk_dict. simpl.
      destruct (py_eq_str _ "application/pdf"); [apply IH|].
      destruct (py_eq_str _ "audio/pcm"); apply IH. }
    split; [exact Hret | exact (Heq Hret)].
Qed.

(** C9.  A chunk whose ["mime_type"] is neither ["application/pdf"] nor
    ["audio/pcm"] runs no handler and writes nothing: the world is
    unchanged and the loop goes on with the next chunk. *)
Theorem other_content_type_is_skipped (c : conn) (kvs : list (string * value))
    (mime_type : value) (rest : list value) (w : world) :
  dict_lookup "mime_type" kvs = Some mime_type →
  mime_type ≠ VStr "application/pdf" →
  mime_type ≠ VStr "audio/pcm" →
  on_chunk c (VDict kvs) w = (Returns tt, w)
  ∧ for_each (on_chunk c) (VDict kvs :: rest) w = for_each (on_chunk c) rest w.
Proof.
  intros Hm Hpdf Haudio.
  assert (Hchunk : on_chunk c (VDict kvs) w = (Returns tt, w)).
  { rewrite on_chunk_dict, Hm. simpl.
    by rewrite (py_eq_str_false _ _ Hpdf), (py_eq_str_false _ _ Haudio). }
  split; [exact Hchunk|]. by rewrite for_each_cons, Hchunk.
Qed.

(** C10, amended.  A mapping chunk with a missing ["mime_type"] or ["data"]
    key raises nothing: the missing key reads as [None].  Without
    ["mime_type"] the chunk matches no handler and is skipped, no frame is
    written and the world is unchanged.  A chunk which lacks ["data"] is
    handled like the same chunk with ["data"] bound to [None]: it is routed
    by its ["mime_type"] as usual. *)
Theorem chunk_with_missing_key (c : conn) (kvs : list (string * value)) (w : world) :
  dict_lookup "mime_type" kvs = None ∨ dict_lookup "data" kvs = None →
  fst (on_chunk c (VDict kvs) w) = Returns tt
  ∧ (dict_lookup "mime_type" kvs = None → on_chunk c (VDict kvs) w = (Returns tt, w))
  ∧ (dict_lookup "data" kvs = None →
     on_chunk c (VDict kvs) w = on_chunk c (VDict (("data", VNone) :: kvs)) w).
Proof.
  intros _. rewrite !on_chunk_dict. simpl.
  split; [|split].
  - destruct (py_eq_str _ "application/pdf"); [reflexivity|].
    destruct (py_eq_str _ "audio/pcm"); reflexivity.
  - intros ->. reflexivity.
  - intros ->. reflexivity.
Qed.

(** ** The registry *)

(** In the event model, closing a connection which is not registered ends
    its handler with the escaped [KeyError]; the world stays as it is. *)
Lemma close_unregistered (c : conn) (w : world) :
  c ∉ connected_clients (self w) →
  react_ending (Close c) w = EscapedKeyError c ∧ react loads (Close c) w = w.
Proof.
  intros Hout. unfold react_ending, react, finally_block.
  by rewrite (set_remove_absent _ _ Hout).
Qed.


End Properties.

(** * The theorems at concrete frames *)

(** ** What the decoder makes of the frames *)

Example json_loads_frame_pdf_QUJD :
  json_loads frame_pdf_QUJD
  = Returns (VDict [("realtime_input",
                     VDict [("media_chunks",
                             VList [VDict [("mime_type", VStr "application/pdf");
                                           ("data", VStr "QUJD")]])])]).
Proof. reflexivity. Qed.

Example json_loads_frame_number : json_loads frame_number = Returns (VInt 5).
Proof. reflexivity. Qed.

Example json_loads_frame_not_json : json_loads frame_not_json = Raises JSONDecodeError.
Proof. reflexivity. Qed.

Example b64decode_QUJD : b64decode "QUJD" = Some [x41; x42; x43]%byte.
Proof. reflexivity. Qed.

(** ** C5 *)

Lemma setup_frame_acknowledged_witness :
  fst (on_message json_loads 1 frame_setup_and_input initial_world) = Returns tt
  ∧ self (snd (on_message json_loads 1 frame_setup_and_input initial_world))
    = self initial_world
  ∧ wire (snd (on_message json_loads 1 frame_setup_and_input initial_world))
    = wire initial_world ++ [(1, VDict [("status", VStr "setup_complete")])].
Proof.
  eapply (setup_frame_acknowledged json_loads 1 frame_setup_and_input);
    vm_compute; reflexivity.
Defined.

(** ** C6 *)

Example json_loads_frame_long_integer :
  json_loads frame_long_integer
  = Raises (OtherException "ValueError"
      "Exceeds the limit (4300 digits) for integer string conversion: value has 4301 digits; use sys.set_int_max_str_digits() to increase the limit").
Proof. vm_compute. reflexivity. Qed.

(** The frame [[11...1], an array left open after an integer of 4301 digits,
    is not JSON; [json.loads] fails on it with the [ValueError] of the
    conversion of the integer, which is not a [JSONDecodeError]: the second
    [except] clause answers, with the text of the exception and not with
    ["Invalid JSON format"]. *)
Lemma invalid_json_counterexample :
  (∀ v, json_loads frame_long_integer ≠ Returns v)
  ∧ sent_to 1 (react json_loads (Message 1 frame_long_integer) initial_world)
    = [VDict [("error",
               VStr "Exceeds the limit (4300 digits) for integer string conversion: value has 4301 digits; use sys.set_int_max_str_digits() to increase the limit")]]
  ∧ sent_to 1 (react json_loads (Message 1 frame_long_integer) initial_world)
    ≠ [VDict [("error", VStr "Invalid JSON format")]].
Proof.
  assert (Hl : json_loads frame_long_integer
               = Raises (OtherException "ValueError"
                   "Exceeds the limit (4300 digits) for integer string conversion: value has 4301 digits; use sys.set_int_max_str_digits() to increase the limit"))
    by (vm_compute; reflexivity).
  assert (Hsent : sent_to 1 (react json_loads (Message 1 frame_long_integer) initial_world)
                  = [VDict [("error",
                       VStr "Exceeds the limit (4300 digits) for integer string conversion: value has 4301 digits; use sys.set_int_max_str_digits() to increase the limit")]]).
  { unfold react, on_message, try_except, mbind, M_bind, lift. rewrite Hl. reflexivity. }
  split; [intros v; rewrite Hl; discriminate|].
  split; [exact Hsent|]. rewrite Hsent. discriminate.
Qed.

Lemma undecodable_frame_is_answered_witness :
  wire (snd (on_message json_loads 1 frame_not_json initial_world))
  = wire initial_world ++ [(1, VDict [("error", VStr "Invalid JSON format")])]
  ∧ run json_loads [Message 1 frame_not_json; Message 1 frame_setup_and_input] initial_world
    = run json_loads [Message 1 frame_setup_and_input]
        (snd (on_message json_loads 1 frame_not_json initial_world)).
Proof.
  assert (Hl : json_loads frame_not_json = Raises JSONDecodeError)
    by (vm_compute; reflexivity).
  destruct (undecodable_frame_is_answered json_loads 1 frame_not_json JSONDecodeError
              initial_world Hl)
    as (_ & _ & Hwire & _ & Hrun).
  split; [exact Hwire | apply Hrun].
Defined.

(** ** C4 *)

(** The frame [5] is valid JSON and has neither key, yet it is answered: the
    test ["setup" in data] raises [TypeError] on a number, and the frame
    boundary turns it into an error frame. *)
Lemma unrecognized_frame_counterexample :
  json_loads frame_number = Returns (VInt 5)
  ∧ sent_to 1 (react json_loads (Message 1 frame_number) initial_world)
    = [VDict [("error", VStr "argument of type 'int' is not iterable")]]
  ∧ sent_to 1 (react json_loads (Message 1 frame_number) initial_world) ≠ [].
Proof. split; [reflexivity | split; [reflexivity | discriminate]]. Qed.

(** An array or a str has no keys, but the membership tests of
    [handle_message] look for an element, or a substring. *)
Example array_with_setup_is_acknowledged :
  sent_to 1 (react json_loads (Message 1 (dq "['setup']")) initial_world)
  = [VDict [("status", VStr "setup_complete")]].
Proof. reflexivity. Qed.

Example str_with_setup_is_acknowledged :
  sent_to 1 (react json_loads (Message 1 (dq "'no setup here'")) initial_world)
  = [VDict [("status", VStr "setup_complete")]].
Proof. reflexivity. Qed.

Example array_without_the_names_is_ignored :
  react json_loads (Message 1 (dq "[1, 'x']")) initial_world = initial_world.
Proof. reflexivity. Qed.

Lemma unrecognized_mapping_is_ignored_witness :
  on_message json_loads 1 frame_other_shape initial_world = (Returns tt, initial_world).
Proof.
  eapply (unrecognized_mapping_is_ignored json_loads 1 frame_other_shape);
    vm_compute; reflexivity.
Defined.

(** ** C2 *)

(** After the frame with the chunk ["QUJD"], the document is the str
    ["QUJD"], not the bytes [b"ABC"] which ["QUJD"] decodes to. *)
Lemma pdf_document_decoded_counterexample :
  b64decode "QUJD" = Some [x41; x42; x43]%byte
  ∧ pdf_data (self (react json_loads (Message 1 frame_pdf_QUJD) initial_world))
    = VStr "QUJD"
  ∧ pdf_data (self (react json_loads (Message 1 frame_pdf_QUJD) initial_world))
    ≠ VBytes [x41; x42; x43]%byte.
Proof. split; [reflexivity | split; [reflexivity | discriminate]]. Qed.

Lemma pdf_chunk_stores_data_as_received_witness :
  pdf_data (self (snd (on_message json_loads 1 frame_pdf_QUJD initial_world)))
  = VStr "QUJD"
  ∧ wire (snd (on_message json_loads 1 frame_pdf_QUJD initial_world))
    = wire initial_world
      ++ [(1, VDict [("status", VStr "pdf_received");
                     ("message", VStr "PDF has been processed successfully")])].
Proof.
  set (kvs := [("mime_type", VStr "application/pdf"); ("data", VStr "QUJD")]).
  set (data := VDict [("realtime_input", VDict [("media_chunks", VList [VDict kvs])])]).
  assert (Hm : dict_lookup "mime_type" kvs = Some (VStr "application/pdf"))
    by reflexivity.
  assert (Hd : dict_lookup "data" kvs = Some (VStr "QUJD")) by reflexivity.
  assert (Hl : json_loads frame_pdf_QUJD = Returns data) by (vm_compute; reflexivity).
  assert (Hf : realtime_input_frame data [VDict kvs])
    by (eapply RealtimeInput; reflexivity).
  destruct (pdf_chunk_stores_data_as_received json_loads 1 frame_pdf_QUJD data kvs
              "QUJD" initial_world Hm Hd Hl Hf)
    as (_ & _ & Hdoc & _ & Hwire).
  split; [exact Hdoc | exact Hwire].
Defined.

(** ** C7 *)

Lemma pdf_last_write_wins_witness :
  pdf_data (self (run json_loads [Message 1 frame_two_pdfs] initial_world)) = VStr "REVG"
  ∧ pdf_data (self (run json_loads [Message 1 frame_pdf_QUJD; Message 1 frame_pdf_REVG]
                      initial_world)) = VStr "REVG".
Proof.
  set (k1 := [("mime_type", VStr "application/pdf"); ("data", VStr "QUJD")]).
  set (k2 := [("mime_type", VStr "application/pdf"); ("data", VStr "REVG")]).
  set (frame := λ chunks, VDict [("realtime_input", VDict [("media_chunks", VList chunks)])]).
  assert (Hm1 : dict_lookup "mime_type" k1 = Some (VStr "application/pdf")) by reflexivity.
  assert (Hd1 : dict_lookup "data" k1 = Some (VStr "QUJD")) by reflexivity.
  assert (Hm2 : dict_lookup "mime_type" k2 = Some (VStr "application/pdf")) by reflexivity.
  assert (Hd2 : dict_lookup "data" k2 = Some (VStr "REVG")) by reflexivity.
  assert (Hlb : json_loads frame_two_pdfs = Returns (frame [VDict k1; VDict k2]))
    by (vm_compute; reflexivity).
  assert (Hl1 : json_loads frame_pdf_QUJD = Returns (frame [VDict k1]))
    by (vm_compute; reflexivity).
  assert (Hl2 : json_loads frame_pdf_REVG = Returns (frame [VDict k2]))
    by (vm_compute; reflexivity).
  assert (Hfb : realtime_input_frame (frame [VDict k1; VDict k2]) [VDict k1; VDict k2])
    by (eapply RealtimeInput; reflexivity).
  assert (Hf1 : realtime_input_frame (frame [VDict k1]) [VDict k1])
    by (eapply RealtimeInput; reflexivity).
  assert (Hf2 : realtime_input_frame (frame [VDict k2]) [VDict k2])
    by (eapply RealtimeInput; reflexivity).
  exact (proj2 (pdf_last_write_wins json_loads 1 k1 k2 (VStr "QUJD") (VStr "REVG")
                  frame_two_pdfs frame_pdf_QUJD frame_pdf_REVG _ _ _ initial_world
                  Hm1 Hd1 Hm2 Hd2 Hlb Hfb Hl1 Hf1 Hl2 Hf2)).
Defined.

(** ** C1 *)

(** Connections 1 and 2 are open; a document chunk arrives on 1; the
    document seen by 2 changes from [None] to the data of the chunk. *)
Lemma session_isolation_counterexample :
  (1 ∈ connected_clients (self (run json_loads [Accept 1; Accept 2] initial_world)))
  ∧ (2 ∈ connected_clients (self (run json_loads [Accept 1; Accept 2] initial_world)))
  ∧ session_document 2 (run json_loads [Accept 1; Accept 2] initial_world) = VNone
  ∧ session_document 2
      (run json_loads [Accept 1; Accept 2; Message 1 frame_pdf_QUJD] initial_world)
    = VStr "QUJD"
  ∧ session_document 2
      (run json_loads [Accept 1; Accept 2; Message 1 frame_pdf_QUJD] initial_world)
    ≠ session_document 2 (run json_loads [Accept 1; Accept 2] initial_world).
Proof.
  split; [|split; [|split; [|split]]].
  - unfold run; simpl; unfold set_add.
    apply elem_of_union_r, elem_of_union_l, elem_of_singleton. reflexivity.
  - unfold run; simpl; unfold set_add.
    apply elem_of_union_l, elem_of_singleton. reflexivity.
  - reflexivity.
  - reflexivity.
  - discriminate.
Qed.

Lemma document_is_shared_between_connections_witness :
  session_document 2
    (react json_loads (Message 1 frame_pdf_QUJD)
       (run json_loads [Accept 1; Accept 2] initial_world)) = VStr "QUJD"
  ∧ sent_to 2
      (react json_loads (Message 1 frame_pdf_QUJD)
         (run json_loads [Accept 1; Accept 2] initial_world))
    = sent_to 2 (run json_loads [Accept 1; Accept 2] initial_world).
Proof.
  set (kvs := [("mime_type", VStr "application/pdf"); ("data", VStr "QUJD")]).
  set (data := VDict [("realtime_input", VDict [("media_chunks", VList [VDict kvs])])]).
  assert (Hne : 1 ≠ 2) by lia.
  assert (Hl : json_loads frame_pdf_QUJD = Returns data) by (vm_compute; reflexivity).
  assert (Hf : realtime_input_frame data [VDict kvs])
    by (eapply RealtimeInput; reflexivity).
  assert (Hm : dict_lookup "mime_type" kvs = Some (VStr "application/pdf"))
    by reflexivity.
  assert (Hd : dict_lookup "data" kvs = Some (VStr "QUJD")) by reflexivity.
  destruct (document_is_shared_between_connections json_loads 1 2 frame_pdf_QUJD data
              kvs (VStr "QUJD") (run json_loads [Accept 1; Accept 2] initial_world)
              Hne Hl Hf Hm Hd)
    as (Hdoc & _ & _ & Hsent & _).
  split; [exact Hdoc | exact Hsent].
Defined.

(** ** C8 *)

(** A frame with an audio chunk, a chunk of another type, a document chunk
    and an empty chunk: two frames are written, in the order of the chunks. *)
Lemma chunks_processed_in_order_witness :
  ∃ outs : list (list (conn * value)),
    Forall (λ out, length out ≤ 1) outs
    ∧ length outs = 4
    ∧ wire (snd (on_message json_loads 1 frame_mixed initial_world))
      = wire initial_world ++ concat outs ++ []
    ∧ sent_to 1 (snd (on_message json_loads 1 frame_mixed initial_world))
      = [VDict [("text", VStr "I received your audio input. This is a placeholder response.");
                ("audio", VStr "I received your audio input. This is a placeholder response.")];
         VDict [("status", VStr "pdf_received");
                ("message", VStr "PDF has been processed successfully")]].
Proof.
  set (chunks := [VDict [("mime_type", VStr "audio/pcm"); ("data", VStr "AAAA")];
                  VDict [("mime_type", VStr "text/plain"); ("data", VStr "aGk=")];
                  VDict [("mime_type", VStr "application/pdf"); ("data", VStr "QUJD")];
                  VDict []]).
  set (data := VDict [("realtime_input", VDict [("media_chunks", VList chunks)])]).
  assert (Hl : json_loads frame_mixed = Returns data) by (vm_compute; reflexivity).
  assert (Hf : realtime_input_frame data chunks) by (eapply RealtimeInput; reflexivity).
  destruct (chunks_processed_in_order json_loads 1 frame_mixed data chunks
              initial_world Hl Hf)
    as (outs & _ & Hall & _ & Hwire & _ & Hdicts).
  exists outs. split; [exact Hall|]. split.
  - apply Hdicts. repeat constructor; eexists; reflexivity.
  - split; [exact Hwire | reflexivity].
Defined.

(** A chunk which is not a mapping ends the loop: the document chunk after it
    is not handled, and the frame is answered by one error frame. *)
Example bad_chunk_aborts_the_frame :
  json_loads frame_bad_chunk
  = Returns (VDict [("realtime_input",
                     VDict [("media_chunks",
                             VList [VStr "x";
                                    VDict [("mime_type", VStr "application/pdf");
                                           ("data", VStr "QUJD")]])])])
  ∧ snd (on_message json_loads 1 frame_bad_chunk initial_world)
    = replied 1 (VDict [("error", VStr "'str' object has no attribute 'get'")])
        initial_world.
Proof. split; reflexivity. Qed.

(** ** C9 *)

Lemma other_content_type_is_skipped_witness :
  on_chunk 1 (VDict [("mime_type", VStr "text/plain"); ("data", VStr "aGk=")])
    initial_world
  = (Returns tt, initial_world).
Proof.
  assert (Hpdf : VStr "text/plain" ≠ VStr "application/pdf") by discriminate.
  assert (Haudio : VStr "text/plain" ≠ VStr "audio/pcm") by discriminate.
  exact (proj1 (other_content_type_is_skipped 1
                  [("mime_type", VStr "text/plain"); ("data", VStr "aGk=")]
                  (VStr "text/plain") [] initial_world eq_refl Hpdf Haudio)).
Defined.

(** ** C10 *)

(** A document chunk without ["data"] is not skipped: it is acknowledged and
    binds the document, which held ["QUJD"], to [None]. *)
Lemma chunk_without_data_counterexample :
  json_loads frame_pdf_no_data
  = Returns (VDict [("realtime_input",
                     VDict [("media_chunks",
                             VList [VDict [("mime_type", VStr "application/pdf")]])])])
  ∧ pdf_data (self (run json_loads [Message 1 frame_pdf_QUJD] initial_world))
    = VStr "QUJD"
  ∧ pdf_data (self (run json_loads [Message 1 frame_pdf_QUJD; Message 1 frame_pdf_no_data]
                      initial_world)) = VNone
  ∧ sent_to 1 (run json_loads [Message 1 frame_pdf_QUJD; Message 1 frame_pdf_no_data]
                 initial_world)
    = [VDict [("status", VStr "pdf_received");
              ("message", VStr "PDF has been processed successfully")];
       VDict [("status", VStr "pdf_received");
              ("message", VStr "PDF has been processed successfully")]].
Proof. split; [|split; [|split]]; reflexivity. Qed.

Lemma chunk_with_missing_key_witness :
  fst (on_chunk 1 (VDict [("data", VStr "QUJD")]) initial_world) = Returns tt
  ∧ on_chunk 1 (VDict [("data", VStr "QUJD")]) initial_world
    = (Returns tt, initial_world).
Proof.
  assert (Hm : dict_lookup "mime_type" [("data", VStr "QUJD")] = None) by reflexivity.
  destruct (chunk_with_missing_key 1 [("data", VStr "QUJD")] initial_world
              (or_introl Hm)) as (Hret & Hskip & _).
  split; [exact Hret | exact (Hskip Hm)].
Defined.

(** ** C3 *)



(** * More of the handler *)

(** ** What the loop over the chunks writes *)

(** The loop writes to its own socket only, and at most one frame per chunk;
    a chunk which raises wrote nothing, which leaves room for the error frame
    of the frame boundary. *)
Lemma for_each_on_chunk_wire (c : conn) (chunks : list value) (w : world) :
  ∃ out : list (conn * value),
    wire (snd (for_each (on_chunk c) chunks w)) = wire w ++ out
    ∧ Forall (λ m, fst m = c) out
    ∧ length out
      + match fst (for_each (on_chunk c) chunks w) with Returns _ => 0 | Raises _ => 1 end
      ≤ length chunks.
Proof.
  revert w. induction chunks as [|chunk rest IH]; intros w.
  { exists []. simpl. rewrite app_nil_r. auto. }
  rewrite for_each_cons.
  assert (Hstop : ∀ e, on_chunk c chunk w = (Raises e, w) →
            ∃ out, wire (snd (on_chunk c chunk w)) = wire w ++ out
                   ∧ Forall (λ m, fst m = c) out
                   ∧ length out + 1 ≤ length (chunk :: rest)).
  { intros e ->. exists []. simpl. rewrite app_nil_r. repeat split; auto. lia. }
  assert (Hgo : ∀ w1 out1, on_chunk c chunk w = (Returns tt, w1) →
            wire w1 = wire w ++ out1 → Forall (λ m, fst m = c) out1 → length out1 ≤ 1 →
            ∃ out, wire (snd (for_each (on_chunk c) rest w1)) = wire w ++ out
                   ∧ Forall (λ m, fst m = c) out
                   ∧ length out
                     + match fst (for_each (on_chunk c) rest w1) with
                       | Returns _ => 0 | Raises _ => 1 end
                     ≤ length (chunk :: rest)).
  { intros w1 out1 _ Hw1 Hall1 Hlen1.
    destruct (IH w1) as (out & Hw & Hall & Hlen).
    exists (out1 ++ out). rewrite Hw, Hw1, app_assoc. repeat split; auto.
    - by apply Forall_app.
    - rewrite length_app. simpl. lia. }
  destruct chunk;
    try (destruct (Hstop _ eq_refl) as (out & ? & ? & ?); exists out; simpl in *; auto; fail).
  rewrite on_chunk_dict in *. simpl in *.
  destruct (py_eq_str _ "application/pdf").
  { eapply (Hgo _ [_]); simpl; eauto. }
  destruct (py_eq_str _ "audio/pcm").
  { eapply (Hgo _ [_]); simpl; eauto. }
  eapply (Hgo _ []); simpl; eauto. by rewrite app_nil_r.
Qed.

Lemma handle_message_wire (c : conn) (data : value) (w : world) :
  ∃ out : list (conn * value),
    wire (snd (handle_message c data w)) = wire w ++ out ∧ Forall (λ m, fst m = c) out.
Proof.
  assert (Hnone : ∃ out : list (conn * value), wire w = wire w ++ out ∧ Forall (λ m, fst m = c) out).
  { exists []. by rewrite app_nil_r. }
  unfold handle_message, mbind, M_bind, lift.
  destruct (py_contains "setup" data) as [[]|e]; simpl; try exact Hnone.
  { eexists [_]. simpl. split; [reflexivity|]. repeat constructor. }
  destruct (py_contains "realtime_input" data) as [[]|e]; simpl; try exact Hnone.
  destruct (py_getitem data "realtime_input") as [input_data|e]; simpl; try exact Hnone.
  destruct (py_get input_data "media_chunks" (VList [])) as [mc|e]; simpl; try exact Hnone.
  destruct (py_iter mc) as [chunks|e]; simpl; try exact Hnone.
  destruct (for_each_on_chunk_wire c chunks w) as (out & Hw & Hall & _). eauto.
Qed.

Lemma sent_to_app (c : conn) (w w' : world) (out : list (conn * value)) :
  wire w' = wire w ++ out →
  sent_to c w' = sent_to c w ++ map snd (List.filter (λ m, Nat.eqb (fst m) c) out).
Proof. intros Hw. unfold sent_to. by rewrite Hw, List.filter_app, map_app. Qed.

Lemma filter_other_socket (c B : conn) (out : list (conn * value)) :
  B ≠ c → Forall (λ m, fst m = c) out → List.filter (λ m, Nat.eqb (fst m) B) out = [].
Proof.
  intros Hne. induction 1 as [|[c' r] out Hm _ IH]; [reflexivity|].
  simpl in *. subst c'.
  assert (E : Nat.eqb c B = false) by (apply Nat.eqb_neq; done).
  by rewrite E.
Qed.

Lemma for_each_dicts_return (c : conn) (chunks : list value) (w : world) :
  Forall (λ chunk, ∃ kvs, chunk = VDict kvs) chunks →
  fst (for_each (on_chunk c) chunks w) = Returns tt.
Proof.
  intros Hdicts. revert w.
  induction Hdicts as [|chunk rest [kvs ->] _ IH]; intros w; [reflexivity|].
  rewrite for_each_cons, on_chunk_dict. simpl.
  destruct (py_eq_str _ "application/pdf"); [apply IH|].
  destruct (py_eq_str _ "audio/pcm"); apply IH.
Qed.

(** The loop rebinds [self.pdf_data] only in the branch of a document chunk,
    to the ["data"] of that chunk. *)
Lemma for_each_on_chunk_document (c : conn) (chunks : list value) (w : world) :
  pdf_data (self (snd (for_each (on_chunk c) chunks w))) = pdf_data (self w)
  ∨ ∃ kvs, VDict kvs ∈ chunks
           ∧ dict_lookup "mime_type" kvs = Some (VStr "application/pdf")
           ∧ pdf_data (self (snd (for_each (on_chunk c) chunks w)))
             = default VNone (dict_lookup "data" kvs).
Proof.
  revert w. induction chunks as [|chunk rest IH]; intros w; [by left|].
  rewrite for_each_cons.
  destruct chunk; try (by left).
  rewrite on_chunk_dict. simpl.
  assert (Hrest : ∀ w1, pdf_data (self w1) = pdf_data (self w) →
            pdf_data (self (snd (for_each (on_chunk c) rest w1))) = pdf_data (self w)
            ∨ ∃ kvs0, VDict kvs0 ∈ VDict kvs :: rest
                      ∧ dict_lookup "mime_type" kvs0 = Some (VStr "application/pdf")
                      ∧ pdf_data (self (snd (for_each (on_chunk c) rest w1)))
                        = default VNone (dict_lookup "data" kvs0)).
  { intros w1 Hsame. destruct (IH w1) as [Hd | (kvs0 & Hin & Hm & Hd)].
    - left. by rewrite Hd.
    - right. exists kvs0. split; [by apply list_elem_of_further|done]. }
  destruct (py_eq_str _ "application/pdf") eqn:Epdf.
  - right. apply py_eq_str_true in Epdf.
    assert (Hm : dict_lookup "mime_type" kvs = Some (VStr "application/pdf")).
    { destruct (dict_lookup "mime_type" kvs); simpl in Epdf; [by subst | discriminate]. }
    destruct (IH (replied c pdf_ack (with_document (default VNone (dict_lookup "data" kvs)) w)))
      as [Hd | (kvs0 & Hin & Hm0 & Hd)].
    + exists kvs. split; [apply list_elem_of_here|]. split; [done|]. by rewrite Hd.
    + exists kvs0. split; [by apply list_elem_of_further|done].
  - destruct (py_eq_str _ "audio/pcm"); apply Hrest; reflexivity.
Qed.

Lemma run_app (loads : string → outcome value) (evs1 evs2 : list event) (w : world) :
  run loads (evs1 ++ evs2) w = run loads evs2 (run loads evs1 w).
Proof. unfold run. apply fold_left_app. Qed.

Section Coverage.

Variable loads : string → outcome value.

Lemma on_message_wire (c : conn) (message : string) (w : world) :
  ∃ out : list (conn * value),
    wire (snd (on_message loads c message w)) = wire w ++ out
    ∧ Forall (λ m, fst m = c) out.
Proof.
  destruct (loads message) as [data|e] eqn:Hl.
  - rewrite (on_message_decoded _ _ _ data) by done.
    destruct (handle_message_wire c data w) as (out & Hw & Hall).
    destruct (handle_message c data w) as [[[]|e] w']; simpl in *; [eauto|].
    exists (out ++ [(c, except_reply e)]). rewrite Hw, app_assoc. split; [done|].
    apply Forall_app. split; [done|]. repeat constructor.
  - rewrite (on_message_undecoded _ _ _ e) by done.
    eexists [_]. simpl. split; [reflexivity|]. repeat constructor.
Qed.

(** ** Audio chunks *)

(** X1.  A chunk whose ["mime_type"] is ["audio/pcm"] is answered by one
    frame whose ["text"] and ["audio"] fields both hold the placeholder
    sentence of [process_audio], whatever the ["data"] of the chunk is, and
    whether it has any; the server object is left as it was. *)
Theorem audio_chunk_gets_placeholder (c : conn) (kvs : list (string * value)) (w : world) :
  dict_lookup "mime_type" kvs = Some (VStr "audio/pcm") →
  on_chunk c (VDict kvs) w
  = (Returns tt,
     replied c
       (VDict [("text", VStr "I received your audio input. This is a placeholder response.");
               ("audio", VStr "I received your audio input. This is a placeholder response.")])
       w).
Proof. intros Hm. rewrite on_chunk_dict, Hm. reflexivity. Qed.

(** ** A chunk which is not a mapping *)

(** X2.  In a realtime_input frame, the first chunk which is not a mapping
    ends the frame: the chunks before it have been handled and their effects
    stay, the frame is answered by the error frame of [AttributeError], and
    the chunks after it are never looked at. *)
Theorem bad_chunk_ends_the_frame (c : conn) (message : string) (data : value)
    (before after : list value) (bad : value) (w w1 : world) :
  loads message = Returns data →
  realtime_input_frame data (before ++ bad :: after) →
  (∀ kvs, bad ≠ VDict kvs) →
  for_each (on_chunk c) before w = (Returns tt, w1) →
  on_message loads c message w
  = (Returns tt,
     replied c
       (VDict [("error", VStr ("'" ++ type_name bad ++ "' object has no attribute 'get'")%string)])
       w1).
Proof.
  intros Hl Hf Hbad Hbefore.
  rewrite (on_message_decoded _ _ _ _ _ Hl), (handle_message_realtime _ _ _ _ Hf).
  rewrite for_each_app, Hbefore, for_each_cons, (on_chunk_not_dict _ _ _ Hbad).
  reflexivity.
Qed.

(** ** Where the frames go *)

(** X3.  Whatever a frame holds, handling it on connection [c] only appends
    to what was written before, and every frame it appends is written to [c]:
    what another connection [B] has received is unchanged. *)
Theorem replies_go_to_the_sender (c B : conn) (message : string) (w : world) :
  B ≠ c →
  sent_to B (snd (on_message loads c message w)) = sent_to B w
  ∧ ∃ out : list value,
      sent_to c (snd (on_message loads c message w)) = sent_to c w ++ out
      ∧ wire (snd (on_message loads c message w)) = wire w ++ map (λ r, (c, r)) out.
Proof.
  intros Hne. destruct (on_message_wire c message w) as (out & Hw & Hall).
  split.
  - rewrite (sent_to_app B _ _ _ Hw), (filter_other_socket c B out Hne Hall).
    simpl. by rewrite app_nil_r.
  - exists (map snd out). split.
    + rewrite (sent_to_app c _ _ _ Hw). f_equal. f_equal.
      clear -Hall. induction Hall as [|[c' r] out Hm _ IH]; [reflexivity|].
      simpl in *. subst c'. rewrite Nat.eqb_refl. simpl. by rewrite IH.
    + rewrite Hw. f_equal. clear -Hall.
      induction Hall as [|[c' r] out Hm _ IH]; [reflexivity|].
      simpl in *. subst c'. by rewrite <- IH.
Qed.

(** X4.  A realtime_input frame with [n] chunks is answered by at most [n]
    frames, the error frame of a chunk which raised included. *)
Theorem at_most_one_reply_per_chunk (c : conn) (message : string) (data : value)
    (chunks : list value) (w : world) :
  loads message = Returns data →
  realtime_input_frame data chunks →
  length (wire (snd (on_message loads c message w))) ≤ length (wire w) + length chunks.
Proof.
  intros Hl Hf.
  rewrite (on_message_decoded _ _ _ _ _ Hl), (handle_message_realtime _ _ _ _ Hf).
  destruct (for_each_on_chunk_wire c chunks w) as (out & Hw & _ & Hlen).
  destruct (for_each (on_chunk c) chunks w) as [[[]|e] w']; simpl in *.
  - rewrite Hw, length_app. lia.
  - rewrite Hw, !length_app. simpl. lia.
Qed.

(** ** What can change the document *)

(** X5.  Whatever a frame holds, after it the document is what it was, or it
    is the ["data"] ([None] when there is none) of a chunk of the frame whose
    ["mime_type"] is ["application/pdf"]: setup frames, invalid frames, audio
    chunks and failing frames never rebind it to anything else. *)
Theorem document_only_set_by_pdf_chunk (c : conn) (message : string) (w : world) :
  pdf_data (self (snd (on_message loads c message w))) = pdf_data (self w)
  ∨ ∃ (data : value) (chunks : list value) (kvs : list (string * value)),
      loads message = Returns data
      ∧ realtime_input_frame data chunks
      ∧ VDict kvs ∈ chunks
      ∧ dict_lookup "mime_type" kvs = Some (VStr "application/pdf")
      ∧ pdf_data (self (snd (on_message loads c message w)))
        = default VNone (dict_lookup "data" kvs).
Proof.
  destruct (loads message) as [data|e] eqn:Hl;
    [|left; by rewrite (on_message_undecoded _ _ _ e)].
  rewrite (on_message_decoded _ _ _ data) by done.
  assert (Hcatch : ∀ r : outcome unit * world,
            pdf_data (self (snd match r with
                                | (Returns _, w') => (Returns tt, w')
                                | (Raises e, w') => (Returns tt, replied c (except_reply e) w')
                                end)) = pdf_data (self (snd r))).
  { by intros [[[]|e] w']. }
  rewrite Hcatch. clear Hcatch.
  unfold handle_message, mbind, M_bind, lift.
  destruct data; simpl; try (by left).
  - destruct (str_contains "setup" s); simpl; [by left|].
    destruct (str_contains "realtime_input" s); simpl; by left.
  - destruct (existsb _ l); simpl; [by left|].
    destruct (existsb _ l); simpl; by left.
  - unfold dict_has.
    destruct (dict_lookup "setup" kvs) eqn:Hs; simpl; [by left|].
    destruct (dict_lookup "realtime_input" kvs) as [input_data|] eqn:Hr; simpl; [|by left].
    destruct input_data as [| | | | | |l|inner]; simpl; try (by left).
    destruct (dict_lookup "media_chunks" inner) as [mc|] eqn:Hmc; simpl; [|by left].
    destruct mc as [| | | |s|b|chunks|kvs0]; simpl; try (by left).
    + destruct (for_each_on_chunk_document c (chars s) w)
        as [Hd | (k & Hin & _)]; [by left|].
      exfalso. clear -Hin. induction s as [|a s IH]; simpl in Hin.
      * by apply elem_of_nil in Hin.
      * apply elem_of_cons in Hin as [[=]|Hin]; auto.
    + destruct (for_each_on_chunk_document c
                  (map (λ x, VInt (Z.of_N (Byte.to_N x))) b) w)
        as [Hd | (k & Hin & _)]; [by left|].
      exfalso. apply list_elem_of_fmap in Hin as (x & [=] & _).
    + destruct (for_each_on_chunk_document c chunks w)
        as [Hd | (k & Hin & Hm & Hd)]; [by left|].
      right. exists (VDict kvs), chunks, k. split; [done|].
      split; [by eapply RealtimeInput|done].
    + destruct (for_each_on_chunk_document c (map (λ kv, VStr (fst kv)) kvs0) w)
        as [Hd | (k & Hin & _)]; [by left|].
      exfalso. apply list_elem_of_fmap in Hin as (x & [=] & _).
Qed.

(** ** Frames which are not mappings *)

(** X6.  A frame which decodes to [null], a boolean or a number is answered
    by an error frame: the test ["setup" in data] raises [TypeError], whose
    text names the type; the server object is unchanged. *)
Theorem scalar_frame_gets_type_error (c : conn) (message : string) (data : value)
    (w : world) :
  loads message = Returns data →
  match data with VNone | VBool _ | VInt _ | VFloat _ => True | _ => False end →
  on_message loads c message w
  = (Returns tt,
     replied c
       (VDict [("error",
                VStr ("argument of type '" ++ type_name data ++ "' is not iterable")%string)])
       w).
Proof.
  intros Hl Hscalar. rewrite (on_message_decoded _ _ _ _ _ Hl).
  destruct data; try contradiction; reflexivity.
Qed.

(** X7.  A frame which decodes to an array with the str ["setup"] among its
    elements, or to a str with ["setup"] as a substring, is acknowledged like
    a setup frame: the test is a membership test, not a key test. *)
Theorem setup_membership_on_array_and_str (c : conn) (message : string) (data : value)
    (w : world) :
  loads message = Returns data →
  (∃ l, data = VList l ∧ VStr "setup" ∈ l)
  ∨ (∃ s, data = VStr s ∧ str_contains "setup" s = true) →
  on_message loads c message w
  = (Returns tt, replied c (VDict [("status", VStr "setup_complete")]) w).
Proof.
  intros Hl Hshape. rewrite (on_message_decoded _ _ _ _ _ Hl).
  unfold handle_message, mbind, M_bind, lift.
  destruct Hshape as [(l & -> & Hin) | (s & -> & Hsub)]; simpl.
  - assert (E : existsb (λ o, py_eq_str o "setup") l = true).
    { apply existsb_exists. exists (VStr "setup").
      split; [by apply list_elem_of_In | reflexivity]. }
    rewrite E. reflexivity.
  - rewrite Hsub. reflexivity.
Qed.

(** ** The shape under ["realtime_input"] *)

(** X8.  When the value under ["realtime_input"] is not a mapping, the call
    of [get] on it raises [AttributeError]: the frame is answered by the
    error frame naming the type, and nothing else happens. *)
Theorem realtime_input_not_a_mapping (c : conn) (message : string)
    (top : list (string * value)) (input_data : value) (w : world) :
  loads message = Returns (VDict top) →
  dict_lookup "setup" top = None →
  dict_lookup "realtime_input" top = Some input_data →
  (∀ inner, input_data ≠ VDict inner) →
  on_message loads c message w
  = (Returns tt,
     replied c
       (VDict [("error",
                VStr ("'" ++ type_name input_data ++ "' object has no attribute 'get'")%string)])
       w).
Proof.
  intros Hl Hs Hr Hnd. rewrite (on_message_decoded _ _ _ _ _ Hl).
  unfold handle_message, mbind, M_bind, lift. simpl. unfold dict_has. rewrite Hs, Hr. simpl.
  destruct input_data; try reflexivity. exfalso. by eapply Hnd.
Qed.

(** X9.  A realtime_input frame without ["media_chunks"], or with an empty
    array of chunks, writes nothing and changes nothing. *)
Theorem no_chunks_no_reply (c : conn) (message : string)
    (top inner : list (string * value)) (w : world) :
  loads message = Returns (VDict top) →
  dict_lookup "setup" top = None →
  dict_lookup "realtime_input" top = Some (VDict inner) →
  dict_lookup "media_chunks" inner = None
  ∨ dict_lookup "media_chunks" inner = Some (VList []) →
  on_message loads c message w = (Returns tt, w).
Proof.
  intros Hl Hs Hr Hmc. rewrite (on_message_decoded _ _ _ _ _ Hl).
  unfold handle_message, mbind, M_bind, lift. simpl. unfold dict_has. rewrite Hs, Hr. simpl.
  destruct Hmc as [-> | ->]; reflexivity.
Qed.

(** X10.  The default of [get("media_chunks", [])] covers a missing key only:
    when ["media_chunks"] is present and is [null], a boolean or a number,
    the loop header raises [TypeError] and the frame is answered by the error
    frame; the server object is unchanged. *)
Theorem scalar_media_chunks_gets_type_error (c : conn) (message : string)
    (top inner : list (string * value)) (mc : value) (w : world) :
  loads message = Returns (VDict top) →
  dict_lookup "setup" top = None →
  dict_lookup "realtime_input" top = Some (VDict inner) →
  dict_lookup "media_chunks" inner = Some mc →
  match mc with VNone | VBool _ | VInt _ | VFloat _ => True | _ => False end →
  on_message loads c message w
  = (Returns tt,
     replied c
       (VDict [("error", VStr ("'" ++ type_name mc ++ "' object is not iterable")%string)])
       w).
Proof.
  intros Hl Hs Hr Hmc Hscalar. rewrite (on_message_decoded _ _ _ _ _ Hl).
  unfold handle_message, mbind, M_bind, lift. simpl. unfold dict_has.
  rewrite Hs, Hr. simpl. rewrite Hmc.
  destruct mc; try contradiction; reflexivity.
Qed.

(** ** Splitting a frame *)

(** X11.  When the chunks [xs] are all mappings, one frame with the chunks
    [xs ++ ys] leaves the server and the sockets as two successive frames
    with the chunks [xs] and [ys] do. *)
Theorem frame_splits_at_mapping_chunks (c : conn) (whole first second : string)
    (fwhole f1 f2 : value) (xs ys : list value) (w : world) :
  loads whole = Returns fwhole → realtime_input_frame fwhole (xs ++ ys) →
  loads first = Returns f1 → realtime_input_frame f1 xs →
  loads second = Returns f2 → realtime_input_frame f2 ys →
  Forall (λ chunk, ∃ kvs, chunk = VDict kvs) xs →
  run loads [Message c whole] w = run loads [Message c first; Message c second] w.
Proof.
  intros Hlw Hfw Hl1 Hf1 Hl2 Hf2 Hdicts. unfold run; simpl.
  rewrite (on_message_decoded _ _ _ _ _ Hlw), (handle_message_realtime _ _ _ _ Hfw).
  rewrite (on_message_decoded _ _ _ _ _ Hl1), (handle_message_realtime _ _ _ _ Hf1).
  rewrite for_each_app.
  pose proof (for_each_dicts_return c xs w Hdicts) as Hret.
  destruct (for_each (on_chunk c) xs w) as [[[]|e] w1]; simpl in Hret; [|discriminate].
  simpl.
  by rewrite (on_message_decoded _ _ _ _ _ Hl2), (handle_message_realtime _ _ _ _ Hf2).
Qed.

(** ** The life of a handler *)

Lemma run_clients_congr (evs : list event) (w1 w2 : world) :
  connected_clients (self w1) = connected_clients (self w2) →
  connected_clients (self (run loads evs w1)) = connected_clients (self (run loads evs w2)).
Proof.
  revert w1 w2. induction evs as [|ev evs IH]; intros w1 w2 Hsame; [exact Hsame|].
  change (run loads (ev :: evs) w1) with (run loads evs (react loads ev w1)).
  change (run loads (ev :: evs) w2) with (run loads evs (react loads ev w2)).
  apply IH. destruct ev as [a | a m | a]; simpl.
  - by rewrite Hsame.
  - by rewrite !on_message_clients.
  - unfold finally_block. rewrite Hsame.
    by destruct (set_remove a (connected_clients (self w2))).
Qed.

Lemma run_accepts_clients (cs : list conn) (w : world) :
  connected_clients (self (run loads (map Accept cs) w))
  = list_to_set cs ∪ connected_clients (self w).
Proof.
  revert w. induction cs as [|a cs IH]; intros w.
  - simpl. by rewrite union_empty_l_L.
  - change (run loads (map Accept (a :: cs)) w)
      with (run loads (map Accept cs) (react loads (Accept a) w)).
    rewrite IH. simpl. unfold set_add.
    apply set_eq. intros x.
    rewrite ?elem_of_union, ?elem_of_list_to_set, ?elem_of_cons, ?elem_of_singleton. tauto.
Qed.

Lemma run_closes_clients (cs : list conn) (w : world) :
  connected_clients (self (run loads (map Close cs) w))
  = connected_clients (self w) ∖ list_to_set cs.
Proof.
  revert w. induction cs as [|a cs IH]; intros w.
  - simpl. by rewrite difference_empty_L.
  - change (run loads (map Close (a :: cs)) w)
      with (run loads (map Close cs) (react loads (Close a) w)).
    rewrite IH. simpl. unfold finally_block, set_remove.
    destruct (decide (a ∈ connected_clients (self w))) as [Hin|Hout]; simpl;
      apply set_eq; intros x;
      rewrite ?elem_of_difference, ?elem_of_union, ?elem_of_list_to_set, ?elem_of_cons,
        ?elem_of_singleton.
    + tauto.
    + split; [|tauto]. intros [Hx Hno]. split; [exact Hx|].
      intros [-> | Hcs]; [exact (Hout Hx) | exact (Hno Hcs)].
Qed.

Lemma run_messages_clients (msgs : list (conn * string)) (w : world) :
  connected_clients (self (run loads (map (λ p, Message (fst p) (snd p)) msgs) w))
  = connected_clients (self w).
Proof.
  revert w. induction msgs as [|[a m] msgs IH]; intros w; [reflexivity|].
  change (run loads (map (λ p, Message (fst p) (snd p)) ((a, m) :: msgs)) w)
    with (run loads (map (λ p, Message (fst p) (snd p)) msgs) (react loads (Message a m) w)).
  rewrite IH. simpl. apply on_message_clients.
Qed.

(** X12.  A handler always ends normally, whatever its frames held: the
    [finally] block finds the connection registered, and leaves a registry
    which is the one the handler found, without the connection. *)
Theorem handler_deregisters (c : conn) (messages : list string) (w : world) :
  fst (handle_connection loads c messages w) = Finished
  ∧ connected_clients (self (snd (handle_connection loads c messages w)))
    = connected_clients (self w) ∖ {[c]}
  ∧ (c ∉ connected_clients (self w) →
     connected_clients (self (snd (handle_connection loads c messages w)))
     = connected_clients (self w)).
Proof.
  assert (Hreg : connected_clients (self (snd (handle_connection loads c messages w)))
                 = connected_clients (self w) ∖ {[c]}).
  { unfold handle_connection, finally_block.
    destruct (for_each_on_message loads c messages
                (with_clients (set_add c (connected_clients (self w))) w)) as [_ Hsame].
    rewrite set_remove_member.
    - simpl. rewrite Hsame. simpl. unfold set_add.
      apply set_eq. intros x.
      rewrite !elem_of_difference, elem_of_union, elem_of_singleton. tauto.
    - rewrite Hsame. simpl. unfold set_add.
      apply elem_of_union_l, elem_of_singleton. reflexivity. }
  split; [apply handle_connection_finishes|]. split; [exact Hreg|].
  intros Hnew. rewrite Hreg.
  apply set_eq. intros x. rewrite elem_of_difference, elem_of_singleton.
  split; [tauto|]. intros Hx. split; [exact Hx|]. by intros ->.
Qed.

(** X13.  Frames never touch the registry: dropping a frame from any
    interleaving of the events of the server leaves the registry reached at
    the end as it is. *)
Theorem messages_never_touch_registry (evs1 evs2 : list event) (c : conn)
    (message : string) (w : world) :
  connected_clients (self (run loads (evs1 ++ Message c message :: evs2) w))
  = connected_clients (self (run loads (evs1 ++ evs2) w)).
Proof.
  rewrite !run_app.
  change (run loads (Message c message :: evs2) (run loads evs1 w))
    with (run loads evs2 (react loads (Message c message) (run loads evs1 w))).
  apply run_clients_congr. simpl. apply on_message_clients.
Qed.

(** X14.  From a fresh server, once the distinct connections [cs] were
    accepted, and whatever frames were handled since, the registry holds
    [length cs] connections; once each of them was closed it is empty, even
    if a connection is closed again. *)
Theorem registry_counts_open_connections (cs closes : list conn)
    (msgs : list (conn * string)) :
  NoDup cs →
  (∀ c, c ∈ cs → c ∈ closes) →
  size (connected_clients
          (self (run loads (map Accept cs ++ map (λ p, Message (fst p) (snd p)) msgs)
                   initial_world))) = length cs
  ∧ connected_clients
      (self (run loads (map Accept cs ++ map (λ p, Message (fst p) (snd p)) msgs
                        ++ map Close closes) initial_world)) = ∅.
Proof.
  intros Hnodup Hclosed. split.
  - rewrite run_app, run_messages_clients, run_accepts_clients. simpl.
    rewrite union_empty_r_L. by apply size_list_to_set.
  - rewrite !run_app, run_closes_clients, run_messages_clients, run_accepts_clients.
    simpl. rewrite union_empty_r_L.
    apply set_eq. intros x. rewrite elem_of_difference, !elem_of_list_to_set.
    split; [intros [Hin Hout]; destruct Hout; auto | intros Hx; by apply elem_of_empty in Hx].
Qed.

(** X15.  The document outlives the connection which uploaded it: when the
    last frame of a connection is a document chunk with the data [d], the
    server still holds [d] after the handler has ended and the connection
    has left the registry. *)
Theorem document_outlives_connection (c : conn) (earlier : list string)
    (message : string) (data : value) (kvs : list (string * value)) (d : value)
    (w : world) :
  loads message = Returns data →
  realtime_input_frame data [VDict kvs] →
  dict_lookup "mime_type" kvs = Some (VStr "application/pdf") →
  dict_lookup "data" kvs = Some d →
  pdf_data (self (snd (handle_connection loads c (earlier ++ [message]) w))) = d
  ∧ c ∉ connected_clients (self (snd (handle_connection loads c (earlier ++ [message]) w))).
Proof.
  intros Hl Hf Hm Hd.
  assert (Hlast : ∀ w0, on_message loads c message w0
                  = (Returns tt, replied c pdf_ack (with_document d w0))).
  { intros w0.
    rewrite (on_message_decoded _ _ _ _ _ Hl), (handle_message_realtime _ _ _ _ Hf).
    rewrite for_each_cons, on_chunk_dict, Hm, Hd. reflexivity. }
  unfold handle_connection, finally_block.
  set (w1 := with_clients (set_add c (connected_clients (self w))) w).
  destruct (for_each_on_message loads c (earlier ++ [message]) w1) as [_ Hsame].
  assert (Hdoc : pdf_data (self (snd (for_each (on_message loads c) (earlier ++ [message]) w1)))
                 = d).
  { rewrite for_each_app.
    destruct (for_each_on_message loads c earlier w1) as [Hret _].
    destruct (for_each (on_message loads c) earlier w1) as [[[]|e] w2];
      simpl in Hret; [|discriminate].
    rewrite for_each_cons, Hlast. reflexivity. }
  rewrite set_remove_member.
  - simpl. split; [exact Hdoc|]. rewrite elem_of_difference, elem_of_singleton. tauto.
  - rewrite Hsame. subst w1. simpl. unfold set_add.
    apply elem_of_union_l, elem_of_singleton. reflexivity.
Qed.

End Coverage.

(** * The further properties at concrete frames *)

Lemma audio_chunk_gets_placeholder_witness :
  sent_to 1 (snd (on_chunk 1 (VDict [("mime_type", VStr "audio/pcm")]) initial_world))
  = [VDict [("text", VStr "I received your audio input. This is a placeholder response.");
            ("audio", VStr "I received your audio input. This is a placeholder response.")]].
Proof.
  assert (Hm : dict_lookup "mime_type" [("mime_type", VStr "audio/pcm")]
               = Some (VStr "audio/pcm")) by reflexivity.
  rewrite (audio_chunk_gets_placeholder 1 [("mime_type", VStr "audio/pcm")] initial_world Hm).
  reflexivity.
Defined.

(** A document chunk, then a number, then another document chunk: the first
    document is stored and acknowledged, the number is answered by the error
    frame, the second document is never stored. *)
Lemma bad_chunk_ends_the_frame_witness :
  pdf_data (self (snd (on_message json_loads 1
     (dq "{'realtime_input': {'media_chunks': [{'mime_type': 'application/pdf', 'data': 'QUJD'}, 5, {'mime_type': 'application/pdf', 'data': 'REVG'}]}}")
     initial_world))) = VStr "QUJD"
  ∧ sent_to 1 (snd (on_message json_loads 1
     (dq "{'realtime_input': {'media_chunks': [{'mime_type': 'application/pdf', 'data': 'QUJD'}, 5, {'mime_type': 'application/pdf', 'data': 'REVG'}]}}")
     initial_world))
    = [VDict [("status", VStr "pdf_received");
              ("message", VStr "PDF has been processed successfully")];
       VDict [("error", VStr "'int' object has no attribute 'get'")]].
Proof.
  set (message := dq "{'realtime_input': {'media_chunks': [{'mime_type': 'application/pdf', 'data': 'QUJD'}, 5, {'mime_type': 'application/pdf', 'data': 'REVG'}]}}").
  set (k1 := VDict [("mime_type", VStr "application/pdf"); ("data", VStr "QUJD")]).
  set (k2 := VDict [("mime_type", VStr "application/pdf"); ("data", VStr "REVG")]).
  set (data := VDict [("realtime_input", VDict [("media_chunks", VList [k1; VInt 5; k2])])]).
  set (w1 := replied 1 pdf_ack (with_document (VStr "QUJD") initial_world)).
  assert (Hl : json_loads message = Returns data) by (vm_compute; reflexivity).
  assert (Hf : realtime_input_frame data ([k1] ++ VInt 5 :: [k2]))
    by (eapply RealtimeInput; reflexivity).
  assert (Hbad : ∀ kvs, VInt 5 ≠ VDict kvs) by discriminate.
  assert (Hbefore : for_each (on_chunk 1) [k1] initial_world = (Returns tt, w1))
    by reflexivity.
  rewrite (bad_chunk_ends_the_frame json_loads 1 message data [k1] [k2] (VInt 5)
             initial_world w1 Hl Hf Hbad Hbefore).
  split; reflexivity.
Defined.

Lemma replies_go_to_the_sender_witness :
  sent_to 2 (snd (on_message json_loads 1 frame_mixed initial_world))
  = sent_to 2 initial_world.
Proof.
  assert (Hne : 2 ≠ 1) by lia.
  exact (proj1 (replies_go_to_the_sender json_loads 1 2 frame_mixed initial_world Hne)).
Defined.

Lemma at_most_one_reply_per_chunk_witness :
  length (wire (snd (on_message json_loads 1 frame_bad_chunk initial_world)))
  ≤ length (wire initial_world) + 2.
Proof.
  set (chunks := [VStr "x";
                  VDict [("mime_type", VStr "application/pdf"); ("data", VStr "QUJD")]]).
  set (data := VDict [("realtime_input", VDict [("media_chunks", VList chunks)])]).
  assert (Hl : json_loads frame_bad_chunk = Returns data) by (vm_compute; reflexivity).
  assert (Hf : realtime_input_frame data chunks) by (eapply RealtimeInput; reflexivity).
  exact (at_most_one_reply_per_chunk json_loads 1 frame_bad_chunk data chunks
           initial_world Hl Hf).
Defined.

Lemma scalar_frame_gets_type_error_witness :
  on_message json_loads 1 "null" initial_world
  = (Returns tt,
     replied 1 (VDict [("error", VStr "argument of type 'NoneType' is not iterable")])
       initial_world).
Proof.
  assert (Hl : json_loads "null" = Returns VNone) by (vm_compute; reflexivity).
  exact (scalar_frame_gets_type_error json_loads 1 "null" VNone initial_world Hl I).
Defined.

Lemma setup_membership_on_array_and_str_witness :
  on_message json_loads 1 (dq "['ready', 'setup']") initial_world
  = (Returns tt, replied 1 (VDict [("status", VStr "setup_complete")]) initial_world).
Proof.
  assert (Hl : json_loads (dq "['ready', 'setup']")
               = Returns (VList [VStr "ready"; VStr "setup"]))
    by (vm_compute; reflexivity).
  assert (Hin : VStr "setup" ∈ [VStr "ready"; VStr "setup"])
    by (apply list_elem_of_further, list_elem_of_here).
  exact (setup_membership_on_array_and_str json_loads 1 _ _ initial_world Hl
           (or_introl (ex_intro _ _ (conj eq_refl Hin)))).
Defined.

Lemma realtime_input_not_a_mapping_witness :
  on_message json_loads 1 (dq "{'realtime_input': [1]}") initial_world
  = (Returns tt,
     replied 1 (VDict [("error", VStr "'list' object has no attribute 'get'")])
       initial_world).
Proof.
  assert (Hl : json_loads (dq "{'realtime_input': [1]}")
               = Returns (VDict [("realtime_input", VList [VInt 1])]))
    by (vm_compute; reflexivity).
  assert (Hnd : ∀ inner, VList [VInt 1] ≠ VDict inner) by discriminate.
  exact (realtime_input_not_a_mapping json_loads 1 _ _ (VList [VInt 1]) initial_world
           Hl eq_refl eq_refl Hnd).
Defined.

Lemma no_chunks_no_reply_witness :
  on_message json_loads 1 (dq "{'realtime_input': {}}") initial_world
  = (Returns tt, initial_world).
Proof.
  assert (Hl : json_loads (dq "{'realtime_input': {}}")
               = Returns (VDict [("realtime_input", VDict [])]))
    by (vm_compute; reflexivity).
  exact (no_chunks_no_reply json_loads 1 _ _ [] initial_world Hl eq_refl eq_refl
           (or_introl eq_refl)).
Defined.

Lemma scalar_media_chunks_gets_type_error_witness :
  on_message json_loads 1 (dq "{'realtime_input': {'media_chunks': null}}") initial_world
  = (Returns tt,
     replied 1 (VDict [("error", VStr "'NoneType' object is not iterable")])
       initial_world).
Proof.
  assert (Hl : json_loads (dq "{'realtime_input': {'media_chunks': null}}")
               = Returns (VDict [("realtime_input", VDict [("media_chunks", VNone)])]))
    by (vm_compute; reflexivity).
  exact (scalar_media_chunks_gets_type_error json_loads 1 _ _ _ VNone initial_world
           Hl eq_refl eq_refl eq_refl I).
Defined.

Lemma frame_splits_at_mapping_chunks_witness :
  run json_loads [Message 1 frame_two_pdfs] initial_world
  = run json_loads [Message 1 frame_pdf_QUJD; Message 1 frame_pdf_REVG] initial_world.
Proof.
  set (k1 := VDict [("mime_type", VStr "application/pdf"); ("data", VStr "QUJD")]).
  set (k2 := VDict [("mime_type", VStr "application/pdf"); ("data", VStr "REVG")]).
  set (frame := λ chunks, VDict [("realtime_input", VDict [("media_chunks", VList chunks)])]).
  assert (Hlw : json_loads frame_two_pdfs = Returns (frame ([k1] ++ [k2])))
    by (vm_compute; reflexivity).
  assert (Hl1 : json_loads frame_pdf_QUJD = Returns (frame [k1]))
    by (vm_compute; reflexivity).
  assert (Hl2 : json_loads frame_pdf_REVG = Returns (frame [k2]))
    by (vm_compute; reflexivity).
  assert (Hfw : realtime_input_frame (frame ([k1] ++ [k2])) ([k1] ++ [k2]))
    by (eapply RealtimeInput; reflexivity).
  assert (Hf1 : realtime_input_frame (frame [k1]) [k1])
    by (eapply RealtimeInput; reflexivity).
  assert (Hf2 : realtime_input_frame (frame [k2]) [k2])
    by (eapply RealtimeInput; reflexivity).
  assert (Hdicts : Forall (λ chunk, ∃ kvs, chunk = VDict kvs) [k1])
    by (repeat constructor; eexists; reflexivity).
  exact (frame_splits_at_mapping_chunks json_loads 1 frame_two_pdfs frame_pdf_QUJD
           frame_pdf_REVG _ _ _ [k1] [k2] initial_world Hlw Hfw Hl1 Hf1 Hl2 Hf2 Hdicts).
Defined.

Lemma registry_counts_open_connections_witness :
  size (connected_clients
          (self (run json_loads
                   (map Accept [1; 2; 3]
                    ++ map (λ p, Message (fst p) (snd p)) [(2, frame_pdf_QUJD)])
                   initial_world))) = 3
  ∧ connected_clients
      (self (run json_loads
               (map Accept [1; 2; 3]
                ++ map (λ p, Message (fst p) (snd p)) [(2, frame_pdf_QUJD)]
                ++ map Close [3; 1; 2; 1])
               initial_world)) = ∅.
Proof.
  assert (Hnodup : NoDup [1; 2; 3]).
  { repeat constructor; rewrite ?elem_of_cons, ?elem_of_nil; lia. }
  assert (Hclosed : ∀ c : conn, c ∈ [1; 2; 3] → c ∈ [3; 1; 2; 1]).
  { intros c. rewrite !elem_of_cons, !elem_of_nil. tauto. }
  exact (registry_counts_open_connections json_loads [1; 2; 3] [3; 1; 2; 1]
           [(2, frame_pdf_QUJD)] Hnodup Hclosed).
Defined.

Lemma document_outlives_connection_witness :
  pdf_data (self (snd (handle_connection json_loads 1 ([frame_not_json] ++ [frame_pdf_QUJD])
                         initial_world))) = VStr "QUJD"
  ∧ (1 ∉ connected_clients
           (self (snd (handle_connection json_loads 1 ([frame_not_json] ++ [frame_pdf_QUJD])
                         initial_world)))).
Proof.
  set (kvs := [("mime_type", VStr "application/pdf"); ("data", VStr "QUJD")]).
  set (data := VDict [("realtime_input", VDict [("media_chunks", VList [VDict kvs])])]).
  assert (Hl : json_loads frame_pdf_QUJD = Returns data) by (vm_compute; reflexivity).
  assert (Hf : realtime_input_frame data [VDict kvs])
    by (eapply RealtimeInput; reflexivity).
  exact (document_outlives_connection json_loads 1 [frame_not_json] frame_pdf_QUJD data kvs
           (VStr "QUJD") initial_world Hl Hf eq_refl eq_refl).
Defined.
